(** * Token lifecycle and authorization pipeline of the authentication API

    A shallow embedding of the request handlers of the Express server
    ([/sign-in], [/authorize], [/refresh], [/sign-out]), of the TypeScript
    [AuthorizeController] and of the [User] class, with the properties the
    specification states about them. *)

From Stdlib Require Import ZArith String List Bool Lia.
From stdpp Require Import gmap strings list fin_maps pretty.

Local Open Scope string_scope.
Local Open Scope Z_scope.

(** ** JavaScript values *)

(** The JSON values the handlers move around: numbers (timestamps are whole
    seconds), strings and nested objects. *)
#[warnings="-register-all"]
Inductive jsval : Type :=
| VNum (n : Z)
| VStr (s : string)
| VObj (fields : list (string * jsval)).

(** A top-level JavaScript object, used as a map from property names. *)
Abbreviation jsobj := (gmap string jsval).

(** [!x] on a string that may be undefined: false exactly for a non-empty
    string. [present] gives the string when it is truthy. *)
Definition present (x : option string) : option string :=
  match x with
  | Some s => if String.eqb s "" then None else Some s
  | None => None
  end.

(** A numeric property; anything else makes the arithmetic below NaN. *)
Definition js_num (o : jsobj) (k : string) : option Z :=
  match o !! k with
  | Some (VNum n) => Some n
  | _ => None
  end.

(** [a - b] on numbers, with [None] for NaN. *)
Definition js_sub (a b : option Z) : option Z :=
  match a, b with
  | Some x, Some y => Some (x - y)
  | _, _ => None
  end.

(** [const { exp, iat, ...rest } = o]. *)
Definition rest_without_exp_iat (o : jsobj) : jsobj :=
  delete "iat" (delete "exp" o).

(** [access_token.slice(0, 3) === "SYS"]. *)
Definition slice_is_SYS (access_token : string) : bool :=
  String.eqb (String.substring 0 3 access_token) "SYS".

(** ** The key-value stores *)

Module Redis.

Record Entry : Type := { value : jsobj; expires_at : Z }.

(** Modelled from the spec: [RedisCacheManager] (./utils/RedisCacheManager)
    is not among the sources. Section 4.3 gives its contract: get, set
    with a TTL in seconds and delete; a set with a TTL that is not
    positive is rejected; a key set with TTL [T] is no longer retrievable
    once [T] seconds have elapsed; a backing failure is reported as an
    error. The failures of the backing server are a schedule: the head of
    [faults] tells whether the next call fails. *)
Record RedisCacheManager : Type :=
  { entries : gmap string Entry; faults : list bool }.

Record GetResult : Type :=
  { get_cacheError : option string; get_cachedVal : option jsobj }.

Record SetResult : Type :=
  { set_status : string; set_cacheError : option string }.

Definition fault_at (i : nat) (c : RedisCacheManager) : bool :=
  nth i (faults c) false.

Definition after_call (c : RedisCacheManager) : RedisCacheManager :=
  {| entries := entries c; faults := tail (faults c) |}.

(** What a working server holds under [k] at time [now]. *)
Definition live (now : Z) (k : string) (c : RedisCacheManager) : option jsobj :=
  match entries c !! k with
  | Some e => if now <? expires_at e then Some (value e) else None
  | None => None
  end.

Definition getKey (now : Z) (k : string) (c : RedisCacheManager)
  : GetResult * RedisCacheManager :=
  if fault_at 0 c
  then ({| get_cacheError := Some "REDIS ERROR"; get_cachedVal := None |},
        after_call c)
  else ({| get_cacheError := None; get_cachedVal := live now k c |},
        after_call c).

Definition setKey (now : Z) (k : string) (v : jsobj) (ttl : option Z)
    (c : RedisCacheManager) : SetResult * RedisCacheManager :=
  if fault_at 0 c
  then ({| set_status := ""; set_cacheError := Some "REDIS ERROR" |},
        after_call c)
  else match ttl with
       | Some t =>
           if 0 <? t
           then ({| set_status := "OK"; set_cacheError := None |},
                 {| entries := <[k := {| value := v; expires_at := now + t |}]>
                                 (entries c);
                    faults := tail (faults c) |})
           else ({| set_status := "";
                    set_cacheError := Some "ERR invalid expire time" |},
                 after_call c)
       | None => ({| set_status := "";
                     set_cacheError := Some "ERR invalid expire time" |},
                  after_call c)
       end.

Definition deleteKey (k : string) (c : RedisCacheManager) : RedisCacheManager :=
  if fault_at 0 c
  then after_call c
  else {| entries := delete k (entries c); faults := tail (faults c) |}.

Definition empty : RedisCacheManager := {| entries := ∅; faults := [] |}.

End Redis.

(** ** Users, tokens and the ledger *)

Record UserRecord : Type :=
  { _id : string;
    email : string;
    password : string;
    access_level : string;
    email_confirmed : bool }.

(** What [fetchUserByEmail] and [fetchUserById] answer:
    [{ user, error }], the error carrying [{ data, status, error_code }]. *)
Record FetchError : Type :=
  { fe_data : string; fe_status : Z; fe_error_code : string }.

Record FetchResult : Type :=
  { fetched_user : option UserRecord; fetch_error : option FetchError }.

(** The token objects built by [generateUserTokens]. *)
Record AccessToken : Type :=
  { at_token : string; at_payload : jsobj; at_exp : Z; at_iat : Z; at_expDate : Z }.

Record RefreshToken : Type :=
  { rt_token : string; rt_expDate : Z }.

(** A [TokenStore] document. *)
Record TokenRecord : Type :=
  { user_id : string;
    access_token : string;
    refresh_token : string;
    access_token_exp_date : Z;
    refresh_token_exp_date : Z;
    requester_data : string }.

(** The [TokenStore] collection; [db_faults] schedules the calls that throw. *)
Record Ledger : Type :=
  { records : list TokenRecord; db_faults : list bool }.

(** What [jwt.verify] hands to its callback: an error (by its [name]) or the
    decoded token. *)
Inductive VerifyResult : Type :=
| VerifyError (name : string)
| Decoded (decodedToken : jsobj).

(** ** Requests, responses, events *)

Record Request : Type :=
  { req_token : option string;            (* req.token *)
    req_refresh_cookie : option string;   (* req.cookies[REFRESH_TOKEN_COOKIE_NAME] *)
    req_email : option string;            (* req.body.email *)
    req_password : option string;         (* req.body.password *)
    req_requester : string }.             (* { ...req.useragent, ...req.ipInfo } *)

Inductive CookieAction : Type :=
| ClearCookie                                   (* res.clearCookie(REFRESH_TOKEN_COOKIE_NAME) *)
| SetCookie (token : string) (expires : Z).     (* res.cookie(REFRESH_TOKEN_COOKIE_NAME, ...) *)

Inductive Body : Type :=
| ErrorCode (error_code : string)
| ErrorCodeData (error_code : string) (error : string)
| Json (o : jsobj)
| Text (s : string).

Record Response : Type :=
  { status : Z; body : Body; cookies : list CookieAction }.

(** What a refresh-cookie linkage check answers ([{ error }] with
    [{ error, status, code }]) and what it did to the response's cookies. *)
Record LinkError : Type :=
  { le_error : string; le_status : Z; le_code : string }.

Record LinkResult : Type :=
  { link_error : option LinkError; link_cookies : list CookieAction }.

(** The calls a handler makes outside itself, in the order it makes them. *)
Inductive Event : Type :=
| BlacklistGet (k : string)
| BlacklistSet (k : string) (ttl : option Z)
| CacheGet (k : string)
| CacheSet (k : string) (ttl : option Z)
| CacheDelete (k : string)
| JwtVerify (k : string)
| LinkCheck (k : string)
| FetchUserByEmail (email : string)
| FetchUserById (id : string)
| VerifyPassword
| GenerateTokens (id : string)
| LedgerFind (access refresh : string)
| LedgerCreate (access refresh : string).

Record World : Type :=
  { now : Z;
    tokenCache : Redis.RedisCacheManager;
    tokenBlacklistCache : Redis.RedisCacheManager;
    TokenStore : Ledger;
    trace : list Event }.

(** ** The collaborators of the handlers *)

(** The helpers the server requires from [./utils/user], [./utils/tokens]
    and [./utils/cookie], and [jwt.verify] with the server's secret key.
    Their sources are not part of the handlers; a handler only sees what they
    answer. [generateUserTokens] and [jwt_verify] read the wall clock, which
    is their last argument. The source hands [tokenCache] to
    [fetchUserByEmail] and [fetchUserById]; only their answer is taken here,
    so what those two calls read from or leave in the session cache is not
    described, and the theorems on [/sign-in] and [/refresh] speak of the
    session cache only through the handler's own write, which comes after
    the call. *)
Class Collaborators : Type :=
  { fetchUserByEmail : string -> FetchResult;
    fetchUserById : string -> FetchResult;
    verifyUserPassword : string -> string -> bool;
    generateUserTokens : UserRecord -> Z -> Z -> Z -> AccessToken * RefreshToken;
    validateRefreshTokenCookie : Request -> string -> Ledger -> LinkResult;
    jwt_verify : string -> Z -> VerifyResult }.

(** ** Handlers as state-passing programs *)

(** A handler runs over the world and the response under construction; it
    goes on with a value, ends the request with a response, or throws. *)
Record Ctx : Type := { world : World; res_cookies : list CookieAction }.

Inductive Step (A : Type) : Type :=
| Continue (a : A)
| Respond (r : Response)
| Throw (e : string).
Arguments Continue {A} a.
Arguments Respond {A} r.
Arguments Throw {A} e.

Definition Handler (A : Type) : Type := Ctx -> Step A * Ctx.

Definition ret {A} (a : A) : Handler A := fun c => (Continue a, c).

Definition bind {A B} (m : Handler A) (k : A -> Handler B) : Handler B :=
  fun c =>
    match m c with
    | (Continue a, c') => k a c'
    | (Respond r, c') => (Respond r, c')
    | (Throw e, c') => (Throw e, c')
    end.

Notation "'let*' x ':=' m 'in' k" := (bind m (fun x => k))
  (at level 10, x pattern, m at level 100, k at level 200).

(** What the client gets. *)
Inductive Reply : Type :=
| Sent (r : Response)
| Thrown (e : string).

Definition serve (h : Handler Empty_set) (w : World) : Reply * World :=
  match h {| world := w; res_cookies := [] |} with
  | (Respond r, c) => (Sent r, world c)
  | (Throw e, c) => (Thrown e, world c)
  | (Continue a, _) => match a with end
  end.

(** The events a run added to the trace. *)
Definition events_since (w w' : World) : list Event :=
  drop (length (trace w)) (trace w').

Definition defined {A} (x : option A) : bool :=
  match x with Some _ => true | None => false end.

Section Primitives.

Definition on_world (f : World -> World) : Handler unit :=
  fun c => (Continue tt, {| world := f (world c); res_cookies := res_cookies c |}).

Definition log (e : Event) : Handler unit :=
  on_world (fun w =>
    {| now := now w; tokenCache := tokenCache w;
       tokenBlacklistCache := tokenBlacklistCache w;
       TokenStore := TokenStore w; trace := trace w ++ [e] |}).

Definition with_tokenCache (c : Redis.RedisCacheManager) (w : World) : World :=
  {| now := now w; tokenCache := c;
     tokenBlacklistCache := tokenBlacklistCache w;
     TokenStore := TokenStore w; trace := trace w |}.

Definition with_tokenBlacklistCache (c : Redis.RedisCacheManager) (w : World) : World :=
  {| now := now w; tokenCache := tokenCache w;
     tokenBlacklistCache := c;
     TokenStore := TokenStore w; trace := trace w |}.

Definition with_TokenStore (l : Ledger) (w : World) : World :=
  {| now := now w; tokenCache := tokenCache w;
     tokenBlacklistCache := tokenBlacklistCache w;
     TokenStore := l; trace := trace w |}.

Definition ask : Handler World := fun c => (Continue (world c), c).

(** [res.status(st).send(b)]; [res.send(b)] is [send 200 b]. *)
Definition send {A} (st : Z) (b : Body) : Handler A :=
  fun c => (Respond {| status := st; body := b; cookies := res_cookies c |}, c).

Definition throw {A} (e : string) : Handler A := fun c => (Throw e, c).

Definition add_cookies (l : list CookieAction) : Handler unit :=
  fun c => (Continue tt, {| world := world c; res_cookies := res_cookies c ++ l |}).

Definition res_clearCookie : Handler unit := add_cookies [ClearCookie].

Definition res_cookie (token : string) (expires : Z) : Handler unit :=
  add_cookies [SetCookie token expires].

Definition tokenBlacklistCache_getKey (k : string) : Handler Redis.GetResult :=
  let* _ := log (BlacklistGet k) in
  let* w := ask in
  let (r, c) := Redis.getKey (now w) k (tokenBlacklistCache w) in
  let* _ := on_world (with_tokenBlacklistCache c) in
  ret r.

Definition tokenBlacklistCache_setKey (k : string) (v : jsobj) (ttl : option Z)
  : Handler Redis.SetResult :=
  let* _ := log (BlacklistSet k ttl) in
  let* w := ask in
  let (r, c) := Redis.setKey (now w) k v ttl (tokenBlacklistCache w) in
  let* _ := on_world (with_tokenBlacklistCache c) in
  ret r.

Definition tokenCache_getKey (k : string) : Handler Redis.GetResult :=
  let* _ := log (CacheGet k) in
  let* w := ask in
  let (r, c) := Redis.getKey (now w) k (tokenCache w) in
  let* _ := on_world (with_tokenCache c) in
  ret r.

Definition tokenCache_setKey (k : string) (v : jsobj) (ttl : option Z)
  : Handler Redis.SetResult :=
  let* _ := log (CacheSet k ttl) in
  let* w := ask in
  let (r, c) := Redis.setKey (now w) k v ttl (tokenCache w) in
  let* _ := on_world (with_tokenCache c) in
  ret r.

Definition tokenCache_deleteKey (k : string) : Handler unit :=
  let* _ := log (CacheDelete k) in
  let* w := ask in
  on_world (with_tokenCache (Redis.deleteKey k (tokenCache w))).

(** [TokenStore.findOne({ access_token, refresh_token })]: the first
    document equal on both fields, [null], or an exception. *)
Inductive Found : Type :=
| FindThrows
| FindNull
| FindDoc (tokenStore : TokenRecord).

Definition pairing (a r : string) (d : TokenRecord) : bool :=
  String.eqb (access_token d) a && String.eqb (refresh_token d) r.

Definition db_fault (l : Ledger) : bool := nth 0 (db_faults l) false.

Definition TokenStore_findOne (a r : string) : Handler Found :=
  let* _ := log (LedgerFind a r) in
  let* w := ask in
  let l := TokenStore w in
  let* _ := on_world (with_TokenStore
              {| records := records l; db_faults := tail (db_faults l) |}) in
  if db_fault l then ret FindThrows
  else match find (pairing a r) (records l) with
       | Some d => ret (FindDoc d)
       | None => ret FindNull
       end.

(** [TokenStore.create(doc)]: [false] when it throws. *)
Definition TokenStore_create (d : TokenRecord) : Handler bool :=
  let* _ := log (LedgerCreate (access_token d) (refresh_token d)) in
  let* w := ask in
  let l := TokenStore w in
  if db_fault l
  then let* _ := on_world (with_TokenStore
                   {| records := records l; db_faults := tail (db_faults l) |}) in
       ret false
  else let* _ := on_world (with_TokenStore
                   {| records := records l ++ [d]; db_faults := tail (db_faults l) |}) in
       ret true.

End Primitives.

(** ** The Express handlers *)

Module Server.
Section Handlers.

Context {C : Collaborators}.

(** [await fetchUserByEmail(email, tokenCache)] *)
Definition call_fetchUserByEmail (email : string) : Handler FetchResult :=
  let* _ := log (FetchUserByEmail email) in
  ret (fetchUserByEmail email).

(** [await fetchUserById(user_id, tokenCache)] *)
Definition call_fetchUserById (id : string) : Handler FetchResult :=
  let* _ := log (FetchUserById id) in
  ret (fetchUserById id).

Definition call_verifyUserPassword (submitted hashed : string) : Handler bool :=
  let* _ := log VerifyPassword in
  ret (verifyUserPassword submitted hashed).

Definition call_generateUserTokens (user : UserRecord) (accessTokenExpiresIn
    refreshTokenExpiresIn : Z) : Handler (AccessToken * RefreshToken) :=
  let* _ := log (GenerateTokens (_id user)) in
  let* w := ask in
  ret (generateUserTokens user accessTokenExpiresIn refreshTokenExpiresIn (now w)).

(** [await validateRefreshTokenCookie(req, res, access_token)]: what it did
    to the cookies of [res] is kept, its [error] is returned. *)
Definition call_validateRefreshTokenCookie (req : Request) (access_token : string)
  : Handler (option LinkError) :=
  let* _ := log (LinkCheck access_token) in
  let* w := ask in
  let r := validateRefreshTokenCookie req access_token (TokenStore w) in
  let* _ := add_cookies (link_cookies r) in
  ret (link_error r).

Definition call_jwt_verify (access_token : string) : Handler VerifyResult :=
  let* _ := log (JwtVerify access_token) in
  let* w := ask in
  ret (jwt_verify access_token (now w)).

(** [status !== "OK" || cacheError] *)
Definition set_failed (r : Redis.SetResult) : bool :=
  negb (String.eqb (Redis.set_status r) "OK") || defined (Redis.set_cacheError r).

(** The tail that [/sign-in] (lines 85-159) and [/refresh] (lines 355-417)
    both contain, word for word: new tokens for [user], the ledger record,
    the cache entry, the refresh cookie, the answer. *)
Definition issue_tokens (req : Request) (user : UserRecord) : Handler Empty_set :=
  let* (accessToken, refreshToken) :=
    call_generateUserTokens user (60 * 60) (60 * 60 * 24 * 7) in
  let* created := TokenStore_create
    {| user_id := _id user;
       access_token := at_token accessToken;
       refresh_token := rt_token refreshToken;
       access_token_exp_date := at_expDate accessToken;
       refresh_token_exp_date := rt_expDate refreshToken;
       requester_data := req_requester req |} in
  if negb created then send 500 (ErrorCode "PROBLEM STORING CREDENTIALS")
  else
    let* r := tokenCache_setKey (at_token accessToken)
      (<["iat" := VNum (at_iat accessToken)]>
         (<["exp" := VNum (at_exp accessToken)]> (at_payload accessToken)))
      (Some (at_exp accessToken - at_iat accessToken)) in
    if set_failed r then send 500 (ErrorCode "PROBLEM STORING CREDENTIALS")
    else
      let* _ := res_cookie (rt_token refreshToken) (rt_expDate refreshToken) in
      send 200 (Json (at_payload accessToken
                        ∪ {[ "access_token" := VStr (at_token accessToken) ]})).

(** [app.post("/sign-in", ...)] *)
Definition sign_in (req : Request) : Handler Empty_set :=
  match present (req_email req), present (req_password req) with
  | Some submitted_email, Some submitted_password =>
      let* fetched := call_fetchUserByEmail submitted_email in
      match fetch_error fetched with
      | Some userFetchError =>
          send (fe_status userFetchError)
               (ErrorCodeData (fe_error_code userFetchError) (fe_data userFetchError))
      | None =>
          match fetched_user fetched with
          | None => send 401 (ErrorCode "EMAIL/PASSWORD COMBINATION NOT RECOGNIZED")
          | Some user =>
              let* passwordIsValid :=
                call_verifyUserPassword submitted_password (password user) in
              if negb passwordIsValid
              then send 401 (ErrorCode "EMAIL/PASSWORD COMBINATION NOT RECOGNIZED")
              else issue_tokens req user
          end
      end
  | _, _ => send 400 (ErrorCode "MISSING EMAIL OR PASSWORD")
  end.

(** The callback of [jwt.verify] in [/authorize] (lines 239-283). *)
Definition authorize_verified (req : Request) (access_token : string)
    (v : VerifyResult) : Handler Empty_set :=
  match v with
  | VerifyError name =>
      if String.eqb name "TokenExpiredError"
      then send 401 (ErrorCode "TOKEN EXPIRED")
      else let* _ := res_clearCookie in
           send 401 (ErrorCode "TOKEN INVALID")
  | Decoded decodedAccessToken =>
      let* resetRefreshTokenError :=
        call_validateRefreshTokenCookie req access_token in
      match resetRefreshTokenError with
      | Some e => send (le_status e) (ErrorCode (le_code e))
      | None =>
          let* r := tokenCache_setKey access_token decodedAccessToken
            (js_sub (js_num decodedAccessToken "exp")
                    (js_num decodedAccessToken "iat")) in
          if set_failed r then send 500 (ErrorCode "PROBLEM STORING CREDENTIALS")
          else send 200 (Json (rest_without_exp_iat decodedAccessToken))
      end
  end.

(** [app.get("/authorize", ...)]. The source does not await
    [tokenCache.deleteKey]; the delete is taken as done before the answer. *)
Definition authorize (req : Request) : Handler Empty_set :=
  match present (req_token req) with
  | None => send 400 (ErrorCode "MISSING AUTHORIZATION BEARER TOKEN")
  | Some access_token =>
      let* bl := tokenBlacklistCache_getKey access_token in
      if defined (Redis.get_cacheError bl)
      then send 500 (ErrorCode "PROBLEM CHECKING BLACKLIST CACHE")
      else if defined (Redis.get_cachedVal bl)
      then let* _ := res_clearCookie in
           send 401 (ErrorCode "TOKEN INVALID")
      else
        let* got := tokenCache_getKey access_token in
        match Redis.get_cachedVal got with
        | Some cachedVal =>
            if slice_is_SYS access_token
            then let* _ := tokenCache_deleteKey access_token in
                 send 200 (Json (rest_without_exp_iat cachedVal))
            else
              let* resetRefreshTokenError :=
                call_validateRefreshTokenCookie req access_token in
              match resetRefreshTokenError with
              | Some e => send (le_status e) (ErrorCode (le_code e))
              | None => send 200 (Json (rest_without_exp_iat cachedVal))
              end
        | None =>
            if defined (Redis.get_cacheError got)
            then send 500 (ErrorCode "PROBLEM READING CACHE")
            else
              let* v := call_jwt_verify access_token in
              authorize_verified req access_token v
        end
  end.

(** [app.get("/refresh", ...)] *)
Definition refresh (req : Request) : Handler Empty_set :=
  match present (req_token req) with
  | None => send 400 (ErrorCode "MISSING AUTHORIZATION BEARER TOKEN")
  | Some access_token =>
      let* bl := tokenBlacklistCache_getKey access_token in
      if defined (Redis.get_cacheError bl)
      then send 500 (ErrorCode "PROBLEM CHECKING BLACKLIST CACHE")
      else if defined (Redis.get_cachedVal bl)
      then let* _ := res_clearCookie in
           send 401 (ErrorCode "TOKEN INVALID")
      else
        match present (req_refresh_cookie req) with
        | None => send 401 (ErrorCode "REFRESH TOKEN INVALID")
        | Some refresh_token =>
            let* found := TokenStore_findOne access_token refresh_token in
            match found with
            | FindThrows => send 500 (ErrorCode "PROBLEM RETRIEVING TOKEN RECORD")
            | FindNull =>
                let* _ := res_clearCookie in
                send 401 (ErrorCode "NO RECORD OF CURRENT TOKEN PAIRING EXISTS")
            | FindDoc tokenStore =>
                let* fetched := call_fetchUserById (user_id tokenStore) in
                match fetch_error fetched with
                | Some userFetchError =>
                    send (fe_status userFetchError)
                         (ErrorCode (fe_error_code userFetchError))
                | None =>
                    match fetched_user fetched with
                    | Some user => issue_tokens req user
                    | None =>
                        (* [user._id] on a user that is not there *)
                        throw "TypeError"
                    end
                end
            end
        end
  end.

(** The callback of [jwt.verify] in [/sign-out] (lines 447-469). On a failed
    blacklist write the source runs [res.send(500)({ error_code })]: Express
    answers the bare status 500, and the call of what [res.send] returned
    throws afterwards. *)
Definition sign_out_verified (access_token : string) (v : VerifyResult)
  : Handler Empty_set :=
  match v with
  | VerifyError _ => send 400 (ErrorCode "TOKEN ALREADY INVALID")
  | Decoded decodedToken =>
      let* w := ask in
      let* r := tokenBlacklistCache_setKey access_token
        {[ "created_at" := VNum (now w) ]}
        (js_sub (js_num decodedToken "exp") (js_num decodedToken "iat")) in
      if set_failed r then send 500 (Text "Internal Server Error")
      else send 200 (Text "SUCCESS")
  end.

(** [app.get("/sign-out", ...)]. A [blacklistCacheError] is only traced
    (line 437-439): nothing returns there. *)
Definition sign_out (req : Request) : Handler Empty_set :=
  match present (req_token req) with
  | None => send 400 (ErrorCode "MISSING AUTHORIZATION BEARER TOKEN")
  | Some access_token =>
      let* bl := tokenBlacklistCache_getKey access_token in
      if defined (Redis.get_cachedVal bl)
      then send 400 (ErrorCode "TOKEN ALREADY BLACKLISTED")
      else
        let* v := call_jwt_verify access_token in
        sign_out_verified access_token v
  end.

End Handlers.
End Server.

(** ** The TypeScript controller *)

Module AuthorizeController.

(** The answers of [BaseController] ([missingAuthorizationToken],
    [invalidToken], [expiredToken], [ok]) and a thrown [Error]. *)
Inductive Answer : Type :=
| missingAuthorizationToken
| invalidToken
| expiredToken
| ok (response : jsobj)
| thrown (message : string).

(** The calls [executeImpl] makes on [tokenBlacklist], [authTokenCache] and
    [jwt], in order. *)
Inductive Call : Type :=
| IsBlacklisted (accessToken : string)
| GetCachedPayload (accessToken : string)
| Verify (accessToken : string)
| CacheToken (accessToken : string) (payload : jsobj) (ttl : option Z).

Section Controller.

(** [TokenBlacklist], [AuthTokenCache] and [BaseController] are imported
    from files that are not part of the controller; [executeImpl] is read
    over what they answer. *)
Variable isBlacklisted : string -> bool.
Variable getCachedPayload : string -> option jsobj.
Variable JWT_SECRET_KEY : option string.
Variable verify : string -> VerifyResult.

(** [AuthorizeController.executeImpl] *)
Definition executeImpl (token : option string) : Answer * list Call :=
  match present token with
  | None => (missingAuthorizationToken, [])
  | Some accessToken =>
      if isBlacklisted accessToken
      then (invalidToken, [IsBlacklisted accessToken])
      else
        match getCachedPayload accessToken with
        | Some cachedPayload =>
            (ok cachedPayload,
             [IsBlacklisted accessToken; GetCachedPayload accessToken])
        | None =>
            match JWT_SECRET_KEY with
            | None =>
                (thrown "Invalid JWT Secret Key",
                 [IsBlacklisted accessToken; GetCachedPayload accessToken])
            | Some _ =>
                match verify accessToken with
                | VerifyError name =>
                    (if String.eqb name "TokenExpiredError"
                     then expiredToken else invalidToken,
                     [IsBlacklisted accessToken; GetCachedPayload accessToken;
                      Verify accessToken])
                | Decoded decodedPayload =>
                    let payload := rest_without_exp_iat decodedPayload in
                    let ttl := js_sub (js_num decodedPayload "exp")
                                      (js_num decodedPayload "iat") in
                    (ok payload,
                     [IsBlacklisted accessToken; GetCachedPayload accessToken;
                      Verify accessToken; CacheToken accessToken payload ttl])
                end
            end
        end
  end.

End Controller.
End AuthorizeController.

(** ** The User class *)

Module User.

(** A method returns or throws an [Error] with a message. *)
Inductive Completion (A : Type) : Type :=
| Return (a : A)
| Throws (message : string).
Arguments Return {A} a.
Arguments Throws {A} message.

(** [private _user: UserRecord], [null] until an [init] resolves. *)
Record User : Type := { _user : option UserRecord }.

Section Class.

(** Imported from [./users] and [./tokens]. *)
Variable fetchUserByEmail : string -> option UserRecord.
Variable fetchUserById : string -> option UserRecord.
Variable isPasswordValid : string -> string -> bool.
Variable TokenDataPair : Type.
Variable createUserTokenData : UserRecord -> TokenDataPair.

Definition constructor : User := {| _user := None |}.

(** [exists()]: [this._user !== null] *)
Definition exists_ (this : User) : bool := defined (_user this).

Definition initByEmail (this : User) (email : string) : User :=
  {| _user := fetchUserByEmail email |}.

Definition initByID (this : User) (id : string) : User :=
  {| _user := fetchUserById id |}.

Definition hasPassword (this : User) (submitted : string) : Completion bool :=
  if negb (exists_ this) then Throws "NO USER INITIALIZED"
  else match _user this with
       | Some u => Return (isPasswordValid (password u) submitted)
       | None => Throws "TypeError"
       end.

Definition confirmedEmail (this : User) : Completion bool :=
  if negb (exists_ this) then Throws "NO USER INITIALIZED"
  else match _user this with
       | Some u => Return (email_confirmed u)
       | None => Throws "TypeError"
       end.

Definition getFields (this : User) : Completion (option UserRecord) :=
  if negb (exists_ this) then Throws "NO USER INITIALIZED"
  else Return (_user this).

(** The promise resolves with the token data. *)
Definition initUserTokens (this : User) : Completion TokenDataPair :=
  if negb (exists_ this) then Throws "NO USER INITIALIZED"
  else match _user this with
       | Some u => Return (createUserTokenData u)
       | None => Throws "TypeError"
       end.

End Class.
End User.

(** ** What the claims speak about *)

(** What the blacklist store and the session cache answer for [t] in [w]. *)
Definition blacklist_lookup (w : World) (t : string) : Redis.GetResult :=
  fst (Redis.getKey (now w) t (tokenBlacklistCache w)).

Definition cache_lookup (w : World) (t : string) : Redis.GetResult :=
  fst (Redis.getKey (now w) t (tokenCache w)).

(** The lookup answered without an error that the key is not there. *)
Definition clean_miss (g : Redis.GetResult) : Prop :=
  Redis.get_cacheError g = None /\ Redis.get_cachedVal g = None.

(** The blacklist store answers with an entry for [t]. *)
Definition blacklisted (w : World) (t : string) : Prop :=
  is_Some (Redis.get_cachedVal (blacklist_lookup w t)).

(** A session-cache lookup or a signature verification. *)
Definition resolves_claims (e : Event) : bool :=
  match e with
  | CacheGet _ | JwtVerify _ => true
  | _ => false
  end.

(** Every cache lookup and every verification has a blacklist lookup
    before it. *)
Definition blacklist_first (evs : list Event) : Prop :=
  forall (pre : list Event) (e : Event) (post : list Event),
    evs = (pre ++ e :: post)%list -> resolves_claims e = true ->
    exists t, BlacklistGet t ∈ pre.

(** A handler only adds events to the trace. *)
Definition appends {A} (h : Handler A) : Prop :=
  forall c, exists evs, trace (world (snd (h c))) = (trace (world c) ++ evs)%list.

(** A ledger call or the minting of tokens. *)
Definition ledger_or_issuance (e : Event) : bool :=
  match e with
  | LedgerFind _ _ | LedgerCreate _ _ | GenerateTokens _ => true
  | _ => false
  end.

Definition client_error (r : Response) : Prop := 400 <= status r < 500.

Definition token_invalid : Response :=
  {| status := 401; body := ErrorCode "TOKEN INVALID"; cookies := [ClearCookie] |}.

Definition not_recognized : Response :=
  {| status := 401;
     body := ErrorCode "EMAIL/PASSWORD COMBINATION NOT RECOGNIZED";
     cookies := [] |}.

(** The same world at a later reading of the clock. *)
Definition at_time (n : Z) (w : World) : World :=
  {| now := n; tokenCache := tokenCache w;
     tokenBlacklistCache := tokenBlacklistCache w;
     TokenStore := TokenStore w; trace := trace w |}.

(** ** Concrete collaborators and worlds *)

Module Scenario.

Definition alice : UserRecord :=
  {| _id := "u1"; email := "a@x.com"; password := "hash:p1";
     access_level := "ADMIN"; email_confirmed := true |}.

Definition payload_of (access_type : string) : jsobj :=
  {[ "access_type" := VStr access_type;
     "authenticated_user" :=
       VObj [("access_level", VStr "ADMIN"); ("_id", VStr "u1")] ]}.

(** The decoded form of a token issued at 0 that expires at 3600. *)
Definition decoded_of (access_type : string) : jsobj :=
  <["iat" := VNum 0]> (<["exp" := VNum 3600]> (payload_of access_type)).

(** Modelled from the spec: [generateUserTokens] (./utils/tokens) is not
    among the sources. Section 4.2: [iat] is the current time,
    [exp = iat + ttl], the access token embeds the claims; the text of a
    token carries its time of issue, so two pairs minted at different times
    differ. *)
Definition generateUserTokens_model (user : UserRecord)
    (accessTokenExpiresIn refreshTokenExpiresIn now : Z)
  : AccessToken * RefreshToken :=
  ({| at_token := "eyJ.access." ++ _id user ++ "." ++ pretty now;
      at_payload :=
        {[ "access_type" := VStr "USER";
           "authenticated_user" :=
             VObj [("access_level", VStr (access_level user));
                   ("_id", VStr (_id user))] ]};
      at_exp := now + accessTokenExpiresIn;
      at_iat := now;
      at_expDate := now + accessTokenExpiresIn |},
   {| rt_token := "eyJ.refresh." ++ _id user ++ "." ++ pretty now;
      rt_expDate := now + refreshTokenExpiresIn |}).

(** A verifier that knows two signed tokens, both issued at 0 and expiring
    at 3600: one with USER claims, one with SYSTEM claims. *)
Definition jwt_verify_model (token : string) (now : Z) : VerifyResult :=
  if String.eqb token "eyJ.user"
  then if now <? 3600 then Decoded (decoded_of "USER")
       else VerifyError "TokenExpiredError"
  else if String.eqb token "eyJ.system"
  then if now <? 3600 then Decoded (decoded_of "SYSTEM")
       else VerifyError "TokenExpiredError"
  else VerifyError "JsonWebTokenError".

#[export] Instance demo : Collaborators :=
  {| fetchUserByEmail e :=
       if String.eqb e "a@x.com"
       then {| fetched_user := Some alice; fetch_error := None |}
       else {| fetched_user := None; fetch_error := None |};
     fetchUserById i :=
       if String.eqb i "u1"
       then {| fetched_user := Some alice; fetch_error := None |}
       else {| fetched_user := None;
               fetch_error := Some {| fe_data := ""; fe_status := 500;
                                      fe_error_code := "USER NOT FOUND" |} |};
     verifyUserPassword submitted hashed := String.eqb hashed ("hash:" ++ submitted);
     generateUserTokens := generateUserTokens_model;
     validateRefreshTokenCookie _ _ _ := {| link_error := None; link_cookies := [] |};
     jwt_verify := jwt_verify_model |}.

(** Nothing cached, nothing blacklisted, no ledger record, at time [n]. *)
Definition fresh (n : Z) : World :=
  {| now := n; tokenCache := Redis.empty; tokenBlacklistCache := Redis.empty;
     TokenStore := {| records := []; db_faults := [] |}; trace := [] |}.

Definition bearer (t : string) : Request :=
  {| req_token := Some t; req_refresh_cookie := Some "eyJ.refresh.u1";
     req_email := None; req_password := None; req_requester := "curl" |}.

(** A request with the access token [t] and the refresh cookie [rt]. *)
Definition paired (t rt : string) : Request :=
  {| req_token := Some t; req_refresh_cookie := Some rt;
     req_email := None; req_password := None; req_requester := "curl" |}.

(** A request with the access token [t] and no refresh cookie. *)
Definition without_cookie (t : string) : Request :=
  {| req_token := Some t; req_refresh_cookie := None;
     req_email := None; req_password := None; req_requester := "curl" |}.

Definition credentials (e p : string) : Request :=
  {| req_token := None; req_refresh_cookie := None;
     req_email := Some e; req_password := Some p; req_requester := "curl" |}.

(** The session cache holds [v] under [k] until [until]. *)
Definition caching (k : string) (v : jsobj) (until : Z) (w : World) : World :=
  with_tokenCache
    {| Redis.entries := <[k := {| Redis.value := v; Redis.expires_at := until |}]>
                          (Redis.entries (tokenCache w));
       Redis.faults := Redis.faults (tokenCache w) |} w.

(** The blacklist holds an entry for [k] until [until]. *)
Definition blacklisting (k : string) (until : Z) (w : World) : World :=
  with_tokenBlacklistCache
    {| Redis.entries :=
         <[k := {| Redis.value := {[ "created_at" := VNum 0 ]};
                   Redis.expires_at := until |}]>
           (Redis.entries (tokenBlacklistCache w));
       Redis.faults := Redis.faults (tokenBlacklistCache w) |} w.

(** The next call on the blacklist store fails, the ones after it work. *)
Definition blacklist_read_fails (w : World) : World :=
  with_tokenBlacklistCache
    {| Redis.entries := Redis.entries (tokenBlacklistCache w);
       Redis.faults := [true] |} w.

(** The collaborators of [demo], with a linkage check that always fails. *)
Definition unlinked : Collaborators :=
  {| fetchUserByEmail := @fetchUserByEmail demo;
     fetchUserById := @fetchUserById demo;
     verifyUserPassword := @verifyUserPassword demo;
     generateUserTokens := generateUserTokens_model;
     validateRefreshTokenCookie _ _ _ :=
       {| link_error := Some {| le_error := "no pairing"; le_status := 401;
                                le_code := "REFRESH TOKEN INVALID" |};
          link_cookies := [ClearCookie] |};
     jwt_verify := jwt_verify_model |}.

(** The next call on the ledger throws. *)
Definition ledger_fails (w : World) : World :=
  with_TokenStore {| records := records (TokenStore w); db_faults := [true] |} w.

(** The next call on the session cache fails. *)
Definition cache_fails (w : World) : World :=
  with_tokenCache {| Redis.entries := Redis.entries (tokenCache w);
                     Redis.faults := [true] |} w.

End Scenario.

(** ** Running the primitives *)

Lemma serve_world (h : Handler Empty_set) (w : World) :
  snd (serve h w) = world (snd (h {| world := w; res_cookies := [] |})).
Proof.
  unfold serve. destruct (h _) as [[a | r | e] c]; [destruct a | reflexivity ..].
Qed.

Lemma events_since_app (w w' : World) (evs : list Event) :
  trace w' = (trace w ++ evs)%list -> events_since w w' = evs.
Proof. intros E. unfold events_since. rewrite E. apply drop_app_length. Qed.

Lemma getKey_snd (n : Z) (k : string) (c : Redis.RedisCacheManager) :
  snd (Redis.getKey n k c) = Redis.after_call c.
Proof. unfold Redis.getKey. destruct (Redis.fault_at 0 c); reflexivity. Qed.

(** A lookup that answers with a value did not fail. *)
Lemma getKey_found_no_error (n : Z) (k : string) (c : Redis.RedisCacheManager) :
  is_Some (Redis.get_cachedVal (fst (Redis.getKey n k c))) ->
  Redis.get_cacheError (fst (Redis.getKey n k c)) = None.
Proof.
  unfold Redis.getKey. destruct (Redis.fault_at 0 c); simpl; [|reflexivity].
  intros [v Hv]. discriminate.
Qed.

(** A lookup that did not fail answers what the server holds. *)
Lemma getKey_no_error_live (n : Z) (k : string) (c : Redis.RedisCacheManager) :
  Redis.get_cacheError (fst (Redis.getKey n k c)) = None ->
  Redis.fault_at 0 c = false /\
  Redis.get_cachedVal (fst (Redis.getKey n k c)) = Redis.live n k c.
Proof.
  unfold Redis.getKey. destruct (Redis.fault_at 0 c); simpl; [discriminate|].
  intros _. split; reflexivity.
Qed.

Lemma tokenBlacklistCache_getKey_run (k : string) (c : Ctx) :
  tokenBlacklistCache_getKey k c =
  (Continue (blacklist_lookup (world c) k),
   {| world :=
        {| now := now (world c); tokenCache := tokenCache (world c);
           tokenBlacklistCache := Redis.after_call (tokenBlacklistCache (world c));
           TokenStore := TokenStore (world c);
           trace := (trace (world c) ++ [BlacklistGet k])%list |};
      res_cookies := res_cookies c |}).
Proof.
  unfold tokenBlacklistCache_getKey, blacklist_lookup, bind, log, ask, on_world,
    ret, with_tokenBlacklistCache. simpl.
  pose proof (getKey_snd (now (world c)) k (tokenBlacklistCache (world c))) as S.
  destruct (Redis.getKey _ _ _) as [r c']. simpl in *. subst c'. reflexivity.
Qed.

Lemma tokenCache_getKey_run (k : string) (c : Ctx) :
  tokenCache_getKey k c =
  (Continue (cache_lookup (world c) k),
   {| world :=
        {| now := now (world c);
           tokenCache := Redis.after_call (tokenCache (world c));
           tokenBlacklistCache := tokenBlacklistCache (world c);
           TokenStore := TokenStore (world c);
           trace := (trace (world c) ++ [CacheGet k])%list |};
      res_cookies := res_cookies c |}).
Proof.
  unfold tokenCache_getKey, cache_lookup, bind, log, ask, on_world,
    ret, with_tokenCache. simpl.
  pose proof (getKey_snd (now (world c)) k (tokenCache (world c))) as S.
  destruct (Redis.getKey _ _ _) as [r c']. simpl in *. subst c'. reflexivity.
Qed.

(** ** Handlers only add to the trace *)

Lemma appends_ret {A} (a : A) : appends (ret a).
Proof. intros c. exists []. simpl. by rewrite app_nil_r. Qed.

Lemma appends_send {A} (st : Z) (b : Body) : appends (@send A st b).
Proof. intros c. exists []. simpl. by rewrite app_nil_r. Qed.

Lemma appends_throw {A} (e : string) : appends (@throw A e).
Proof. intros c. exists []. simpl. by rewrite app_nil_r. Qed.

Lemma appends_ask : appends ask.
Proof. intros c. exists []. simpl. by rewrite app_nil_r. Qed.

Lemma appends_add_cookies (l : list CookieAction) : appends (add_cookies l).
Proof. intros c. exists []. simpl. by rewrite app_nil_r. Qed.

Lemma appends_log (e : Event) : appends (log e).
Proof. intros c. exists [e]. reflexivity. Qed.

Lemma appends_with_tokenCache (s : Redis.RedisCacheManager) :
  appends (on_world (with_tokenCache s)).
Proof. intros c. exists []. simpl. by rewrite app_nil_r. Qed.

Lemma appends_with_tokenBlacklistCache (s : Redis.RedisCacheManager) :
  appends (on_world (with_tokenBlacklistCache s)).
Proof. intros c. exists []. simpl. by rewrite app_nil_r. Qed.

Lemma appends_with_TokenStore (l : Ledger) :
  appends (on_world (with_TokenStore l)).
Proof. intros c. exists []. simpl. by rewrite app_nil_r. Qed.

Lemma appends_bind {A B} (m : Handler A) (k : A -> Handler B) :
  appends m -> (forall a, appends (k a)) -> appends (bind m k).
Proof.
  intros Hm Hk c. unfold bind. destruct (Hm c) as [e1 E1].
  destruct (m c) as [[a | r | e] c'] eqn:Em; simpl in *.
  - destruct (Hk a c') as [e2 E2]. exists (e1 ++ e2)%list.
    rewrite E2, E1. by rewrite app_assoc.
  - by exists e1.
  - by exists e1.
Qed.

Create HintDb appends.
#[export] Hint Resolve appends_ret appends_send appends_throw appends_ask
  appends_add_cookies appends_log appends_with_tokenCache
  appends_with_tokenBlacklistCache appends_with_TokenStore : appends.

(** Goes through the binds and the branches of a handler. *)
Ltac appends_step :=
  first
    [ solve [auto with appends]
    | unfold res_clearCookie, res_cookie; solve [auto with appends]
    | apply appends_bind; [| intros ?]
    | progress cbv beta zeta
    | match goal with
      | |- appends (match ?x with _ => _ end) => destruct x
      end ].

Ltac appends_all := repeat appends_step.

Lemma appends_blacklist_getKey (k : string) : appends (tokenBlacklistCache_getKey k).
Proof. unfold tokenBlacklistCache_getKey. appends_all. Qed.

Lemma appends_blacklist_setKey (k : string) (v : jsobj) (ttl : option Z) :
  appends (tokenBlacklistCache_setKey k v ttl).
Proof. unfold tokenBlacklistCache_setKey. appends_all. Qed.

Lemma appends_cache_getKey (k : string) : appends (tokenCache_getKey k).
Proof. unfold tokenCache_getKey. appends_all. Qed.

Lemma appends_cache_setKey (k : string) (v : jsobj) (ttl : option Z) :
  appends (tokenCache_setKey k v ttl).
Proof. unfold tokenCache_setKey. appends_all. Qed.

Lemma appends_cache_deleteKey (k : string) : appends (tokenCache_deleteKey k).
Proof. unfold tokenCache_deleteKey. appends_all. Qed.

Lemma appends_findOne (a r : string) : appends (TokenStore_findOne a r).
Proof. unfold TokenStore_findOne. appends_all. Qed.

Lemma appends_create (d : TokenRecord) : appends (TokenStore_create d).
Proof. unfold TokenStore_create. appends_all. Qed.

#[export] Hint Resolve appends_blacklist_getKey appends_blacklist_setKey
  appends_cache_getKey appends_cache_setKey appends_cache_deleteKey
  appends_findOne appends_create : appends.

(** ** The order of the lookups *)

Section Order.

Context {C : Collaborators}.

Lemma appends_link (req : Request) (t : string) :
  appends (Server.call_validateRefreshTokenCookie req t).
Proof. unfold Server.call_validateRefreshTokenCookie. appends_all. Qed.

Lemma appends_jwt_verify (t : string) : appends (Server.call_jwt_verify t).
Proof. unfold Server.call_jwt_verify. appends_all. Qed.

Lemma appends_fetchUserById (i : string) : appends (Server.call_fetchUserById i).
Proof. unfold Server.call_fetchUserById. appends_all. Qed.

Lemma appends_generate (u : UserRecord) (a r : Z) :
  appends (Server.call_generateUserTokens u a r).
Proof. unfold Server.call_generateUserTokens. appends_all. Qed.

Hint Resolve appends_link appends_jwt_verify appends_fetchUserById
  appends_generate : appends.

Lemma appends_issue_tokens (req : Request) (u : UserRecord) :
  appends (Server.issue_tokens req u).
Proof. unfold Server.issue_tokens. appends_all. Qed.

Lemma appends_authorize_verified (req : Request) (t : string) (v : VerifyResult) :
  appends (Server.authorize_verified req t v).
Proof. unfold Server.authorize_verified. appends_all. Qed.

Hint Resolve appends_issue_tokens appends_authorize_verified : appends.

(** A handler that starts with a blacklist lookup has it at the head of the
    events of the request. *)
Lemma blacklist_lookup_at_head (t : string)
    (k : Redis.GetResult -> Handler Empty_set) (w : World) :
  (forall g, appends (k g)) ->
  exists rest,
    events_since w (snd (serve (bind (tokenBlacklistCache_getKey t) k) w))
    = BlacklistGet t :: rest.
Proof.
  intros Hk. rewrite serve_world. unfold bind.
  rewrite tokenBlacklistCache_getKey_run.
  match goal with
  | |- context [k ?g ?c] => destruct (Hk g c) as [rest E]
  end.
  exists rest. apply events_since_app. rewrite E. simpl.
  by rewrite <- app_assoc.
Qed.

Lemma head_blacklist_first (t : string) (rest : list Event) :
  blacklist_first (BlacklistGet t :: rest).
Proof.
  intros pre e post E He. destruct pre as [|p pre]; simpl in E.
  - injection E as <- _. discriminate.
  - injection E as <- _. exists t. apply list_elem_of_here.
Qed.

Lemma nil_blacklist_first : blacklist_first [].
Proof. intros pre e post E _. by destruct pre. Qed.

Lemma authorize_blacklist_first (req : Request) (w : World) :
  blacklist_first (events_since w (snd (serve (Server.authorize req) w))).
Proof.
  unfold Server.authorize. destruct (present (req_token req)) as [t|].
  - edestruct (blacklist_lookup_at_head t) as [rest ->];
      [| apply head_blacklist_first].
    intros g. appends_all.
  - rewrite serve_world. simpl. unfold events_since. rewrite drop_all.
    apply nil_blacklist_first.
Qed.

Lemma refresh_blacklist_first (req : Request) (w : World) :
  blacklist_first (events_since w (snd (serve (Server.refresh req) w))).
Proof.
  unfold Server.refresh. destruct (present (req_token req)) as [t|].
  - edestruct (blacklist_lookup_at_head t) as [rest ->];
      [| apply head_blacklist_first].
    intros g. appends_all.
  - rewrite serve_world. simpl. unfold events_since. rewrite drop_all.
    apply nil_blacklist_first.
Qed.

(** What both handlers do with a token the blacklist store has. *)
Lemma authorize_blacklisted (req : Request) (w : World) (t : string) :
  present (req_token req) = Some t -> blacklisted w t ->
  fst (serve (Server.authorize req) w) = Sent token_invalid /\
  events_since w (snd (serve (Server.authorize req) w)) = [BlacklistGet t].
Proof.
  intros Ht Hb. pose proof (getKey_found_no_error _ _ _ Hb) as Hn.
  change (Redis.get_cacheError (blacklist_lookup w t) = None) in Hn.
  destruct Hb as [v Hv].
  unfold serve, events_since, Server.authorize. rewrite Ht. unfold bind.
  rewrite tokenBlacklistCache_getKey_run. cbn [world res_cookies].
  rewrite Hn, Hv. simpl. split; [reflexivity | apply drop_app_length].
Qed.

Lemma refresh_blacklisted (req : Request) (w : World) (t : string) :
  present (req_token req) = Some t -> blacklisted w t ->
  fst (serve (Server.refresh req) w) = Sent token_invalid /\
  events_since w (snd (serve (Server.refresh req) w)) = [BlacklistGet t].
Proof.
  intros Ht Hb. pose proof (getKey_found_no_error _ _ _ Hb) as Hn.
  change (Redis.get_cacheError (blacklist_lookup w t) = None) in Hn.
  destruct Hb as [v Hv].
  unfold serve, events_since, Server.refresh. rewrite Ht. unfold bind.
  rewrite tokenBlacklistCache_getKey_run. cbn [world res_cookies].
  rewrite Hn, Hv. simpl. split; [reflexivity | apply drop_app_length].
Qed.

(** C1. For every authorize or refresh request that carries a blacklisted
    access token, whatever the session cache holds and whatever the
    signature verification would say, the answer is 401 TOKEN INVALID (with
    the refresh cookie cleared) and the blacklist lookup is the only call
    made; and in every run of either handler each session-cache lookup and
    each signature verification has the blacklist lookup before it. *)
Theorem C1_blacklisted_token_rejected (req : Request) (w : World) :
  (forall t, present (req_token req) = Some t -> blacklisted w t ->
     (fst (serve (Server.authorize req) w) = Sent token_invalid /\
      events_since w (snd (serve (Server.authorize req) w)) = [BlacklistGet t]) /\
     (fst (serve (Server.refresh req) w) = Sent token_invalid /\
      events_since w (snd (serve (Server.refresh req) w)) = [BlacklistGet t])) /\
  blacklist_first (events_since w (snd (serve (Server.authorize req) w))) /\
  blacklist_first (events_since w (snd (serve (Server.refresh req) w))).
Proof.
  split; [| split].
  - intros t Ht Hb. split.
    + by apply authorize_blacklisted.
    + by apply refresh_blacklisted.
  - apply authorize_blacklist_first.
  - apply refresh_blacklist_first.
Qed.

End Order.

(** ** Sign-in, refresh and the fallback verification *)

Section Rejections.

Context {C : Collaborators}.

(** C5. A sign-in with an email that matches no stored user and a sign-in
    with a known email and a password that does not match the stored hash
    get the same answer, 401 with the one error code, so the two cannot be
    told apart. *)
Theorem C5_sign_in_rejections_identical
    (req1 req2 : Request) (w1 w2 : World) (e1 p1 e2 p2 : string) (u : UserRecord)
    (Hemail1 : present (req_email req1) = Some e1)
    (Hpass1 : present (req_password req1) = Some p1)
    (Hemail2 : present (req_email req2) = Some e2)
    (Hpass2 : present (req_password req2) = Some p2)
    (Hunknown : fetchUserByEmail e1 = {| fetched_user := None; fetch_error := None |})
    (Hknown : fetchUserByEmail e2 = {| fetched_user := Some u; fetch_error := None |})
    (Hwrong : verifyUserPassword p2 (password u) = false) :
  fst (serve (Server.sign_in req1) w1) = Sent not_recognized /\
  fst (serve (Server.sign_in req2) w2) = Sent not_recognized.
Proof.
  split.
  - unfold serve, Server.sign_in. rewrite Hemail1, Hpass1.
    unfold bind, Server.call_fetchUserByEmail, bind, log, on_world, ret.
    cbn [fst snd world res_cookies]. rewrite Hunknown. reflexivity.
  - unfold serve, Server.sign_in. rewrite Hemail2, Hpass2.
    unfold bind, Server.call_fetchUserByEmail, Server.call_verifyUserPassword,
      bind, log, on_world, ret.
    cbn [fst snd world res_cookies]. rewrite Hknown.
    cbn [fetch_error fetched_user]. rewrite Hwrong. reflexivity.
Qed.

(** C7 (amended). A refresh without an access token is answered 400 before
    anything is called. A refresh with an access token and no refresh cookie
    calls the blacklist store and nothing else, so the missing cookie is
    found before any ledger lookup and any token issuance, but after the
    blacklist lookup: when that lookup fails the answer is 500; when it
    answers, the answer is a 401, which for a token that is not blacklisted
    says REFRESH TOKEN INVALID. *)
Theorem C7_refresh_missing_inputs (req : Request) (w : World) :
  (present (req_token req) = None ->
     serve (Server.refresh req) w =
     (Sent {| status := 400;
              body := ErrorCode "MISSING AUTHORIZATION BEARER TOKEN";
              cookies := [] |}, w)) /\
  (forall t, present (req_token req) = Some t ->
     present (req_refresh_cookie req) = None ->
     events_since w (snd (serve (Server.refresh req) w)) = [BlacklistGet t] /\
     TokenStore (snd (serve (Server.refresh req) w)) = TokenStore w /\
     (Redis.get_cacheError (blacklist_lookup w t) = None ->
        exists r, fst (serve (Server.refresh req) w) = Sent r /\
                  status r = 401 /\ client_error r) /\
     (clean_miss (blacklist_lookup w t) ->
        fst (serve (Server.refresh req) w) =
        Sent {| status := 401; body := ErrorCode "REFRESH TOKEN INVALID";
                cookies := [] |}) /\
     (forall err, Redis.get_cacheError (blacklist_lookup w t) = Some err ->
        fst (serve (Server.refresh req) w) =
        Sent {| status := 500;
                body := ErrorCode "PROBLEM CHECKING BLACKLIST CACHE";
                cookies := [] |})).
Proof.
  split.
  - intros Ht. unfold serve, Server.refresh. rewrite Ht. destruct w; reflexivity.
  - intros t Ht Hc.
    unfold serve, events_since, Server.refresh. rewrite Ht, Hc. unfold bind.
    rewrite tokenBlacklistCache_getKey_run. cbn [world res_cookies].
    destruct (Redis.get_cacheError (blacklist_lookup w t)) as [err|] eqn:He;
      destruct (Redis.get_cachedVal (blacklist_lookup w t)) as [v|] eqn:Hv;
      simpl; (split; [apply drop_app_length |]); (split; [reflexivity |]);
      (split; [| split]; intros H;
       [ first [ discriminate
               | eexists; split; [reflexivity |];
                 split; [reflexivity | unfold client_error; simpl; lia] ]
       | destruct H as [H1 H2]; first [congruence | reflexivity]
       | intros H'; first [discriminate | reflexivity] ]).
Qed.

(** C8. On the fallback verification path of [/authorize] (token present,
    not blacklisted, not cached), a verification that fails with an expiry
    error is answered 401 TOKEN EXPIRED and nothing is done to the refresh
    cookie; any other verification failure is answered 401 TOKEN INVALID
    and the refresh cookie is cleared. *)
Theorem C8_fallback_verification_failures
    (req : Request) (w : World) (t name : string)
    (Htoken : present (req_token req) = Some t)
    (Hblack : clean_miss (blacklist_lookup w t))
    (Hcache : clean_miss (cache_lookup w t))
    (Hverify : jwt_verify t (now w) = VerifyError name) :
  fst (serve (Server.authorize req) w) =
  Sent (if String.eqb name "TokenExpiredError"
        then {| status := 401; body := ErrorCode "TOKEN EXPIRED"; cookies := [] |}
        else {| status := 401; body := ErrorCode "TOKEN INVALID";
                cookies := [ClearCookie] |}).
Proof.
  destruct Hblack as [Hbe Hbv]. destruct Hcache as [Hce Hcv].
  unfold serve, Server.authorize. rewrite Htoken. unfold bind.
  rewrite tokenBlacklistCache_getKey_run. cbn [world res_cookies].
  rewrite Hbe, Hbv. cbn [defined].
  rewrite tokenCache_getKey_run. cbn [world res_cookies].
  change (cache_lookup _ t) with (cache_lookup w t).
  rewrite Hcv, Hce. cbn [defined].
  unfold Server.call_jwt_verify, bind, log, ask, on_world, ret.
  cbn [fst snd world res_cookies now]. rewrite Hverify.
  unfold Server.authorize_verified.
  destruct (String.eqb name "TokenExpiredError"); reflexivity.
Qed.

End Rejections.

(** The TypeScript controller sorts a failed verification the same way:
    [expiredToken] for an expiry error, [invalidToken] otherwise. *)
Lemma executeImpl_verification_failure
    (isBlacklisted : string -> bool) (getCachedPayload : string -> option jsobj)
    (key : string) (verify : string -> VerifyResult)
    (token : option string) (t name : string) :
  present token = Some t -> isBlacklisted t = false ->
  getCachedPayload t = None -> verify t = VerifyError name ->
  fst (AuthorizeController.executeImpl isBlacklisted getCachedPayload (Some key)
         verify token)
  = if String.eqb name "TokenExpiredError"
    then AuthorizeController.expiredToken else AuthorizeController.invalidToken.
Proof.
  intros Ht Hb Hc Hv. unfold AuthorizeController.executeImpl.
  rewrite Ht, Hb, Hc, Hv. reflexivity.
Qed.

(** ** The cache-hit path of authorize *)

Lemma fault_at_after_call (c : Redis.RedisCacheManager) :
  Redis.fault_at 0 (Redis.after_call c) = Redis.fault_at 1 c.
Proof. unfold Redis.fault_at, Redis.after_call. simpl. by destruct (Redis.faults c). Qed.

Lemma rest_has_no_iat (o : jsobj) : rest_without_exp_iat o !! "iat" = None.
Proof. unfold rest_without_exp_iat. apply lookup_delete_eq. Qed.

Lemma rest_has_no_exp (o : jsobj) : rest_without_exp_iat o !! "exp" = None.
Proof.
  unfold rest_without_exp_iat.
  rewrite lookup_delete_ne by discriminate. apply lookup_delete_eq.
Qed.

(** Everything else of the object is kept. *)
Lemma rest_keeps (o : jsobj) (k : string) :
  k <> "iat" -> k <> "exp" -> rest_without_exp_iat o !! k = o !! k.
Proof.
  intros Hi He. unfold rest_without_exp_iat.
  rewrite lookup_delete_ne by congruence. by rewrite lookup_delete_ne by congruence.
Qed.


(** The TypeScript controller answers a cache hit with the cached payload as
    it is; its only calls are the blacklist test and the cache read. *)
Lemma executeImpl_cache_hit
    (isBlacklisted : string -> bool) (getCachedPayload : string -> option jsobj)
    (key : option string) (verify : string -> VerifyResult)
    (token : option string) (t : string) (cachedPayload : jsobj) :
  present token = Some t -> isBlacklisted t = false ->
  getCachedPayload t = Some cachedPayload ->
  AuthorizeController.executeImpl isBlacklisted getCachedPayload key verify token
  = (AuthorizeController.ok cachedPayload,
     [AuthorizeController.IsBlacklisted t; AuthorizeController.GetCachedPayload t]).
Proof.
  intros Ht Hb Hc. unfold AuthorizeController.executeImpl.
  rewrite Ht, Hb, Hc. reflexivity.
Qed.

Section CacheHit.

Context {C : Collaborators}.

(** What [/authorize] does up to the answer of the session cache, for a
    token that is not blacklisted. *)
Lemma authorize_to_cache_lookup (req : Request) (w : World) (t : string) :
  present (req_token req) = Some t ->
  clean_miss (blacklist_lookup w t) ->
  exists k : Redis.GetResult -> Handler Empty_set,
    Server.authorize req {| world := w; res_cookies := [] |} =
    k (cache_lookup w t)
      {| world :=
           {| now := now w;
              tokenCache := Redis.after_call (tokenCache w);
              tokenBlacklistCache := Redis.after_call (tokenBlacklistCache w);
              TokenStore := TokenStore w;
              trace := (trace w ++ [BlacklistGet t; CacheGet t])%list |};
         res_cookies := [] |} /\
    k = fun got =>
      match Redis.get_cachedVal got with
      | Some cachedVal =>
          if slice_is_SYS t
          then let* _ := tokenCache_deleteKey t in
               send 200 (Json (rest_without_exp_iat cachedVal))
          else
            let* resetRefreshTokenError :=
              Server.call_validateRefreshTokenCookie req t in
            match resetRefreshTokenError with
            | Some e => send (le_status e) (ErrorCode (le_code e))
            | None => send 200 (Json (rest_without_exp_iat cachedVal))
            end
      | None =>
          if defined (Redis.get_cacheError got)
          then send 500 (ErrorCode "PROBLEM READING CACHE")
          else let* v := Server.call_jwt_verify t in
               Server.authorize_verified req t v
      end.
Proof.
  intros Ht [Hbe Hbv]. eexists. split; [| reflexivity].
  unfold Server.authorize. rewrite Ht. unfold bind at 1.
  rewrite tokenBlacklistCache_getKey_run. cbn [world res_cookies].
  rewrite Hbe, Hbv. cbn [defined]. unfold bind at 1.
  rewrite tokenCache_getKey_run. cbn [world res_cookies now tokenCache
    tokenBlacklistCache TokenStore trace].
  rewrite <- app_assoc. reflexivity.
Qed.

(** C9 (amended). In [/authorize], for every cache hit whose access token
    does not begin with "SYS" (the handler reads the kind of a token off its
    text, not off the claims), the refresh-cookie linkage check is made
    before the answer, which is the error of the check or, on success, the
    cached claims without [iat] and [exp]. The TypeScript controller answers
    a cache hit with the cached payload and makes no linkage check. *)
Theorem C9_cache_hit_linkage_check
    (req : Request) (w : World) (t : string) (cachedVal : jsobj)
    (Htoken : present (req_token req) = Some t)
    (Hblack : clean_miss (blacklist_lookup w t))
    (Hhit : Redis.get_cachedVal (cache_lookup w t) = Some cachedVal)
    (Hkind : slice_is_SYS t = false) :
  let link := validateRefreshTokenCookie req t (TokenStore w) in
  (events_since w (snd (serve (Server.authorize req) w))
   = [BlacklistGet t; CacheGet t; LinkCheck t] /\
   fst (serve (Server.authorize req) w)
   = Sent match link_error link with
          | Some e => {| status := le_status e; body := ErrorCode (le_code e);
                         cookies := link_cookies link |}
          | None => {| status := 200;
                       body := Json (rest_without_exp_iat cachedVal);
                       cookies := link_cookies link |}
          end /\
   rest_without_exp_iat cachedVal !! "iat" = None /\
   rest_without_exp_iat cachedVal !! "exp" = None) /\
  (forall isBlacklisted getCachedPayload key verify payload,
     isBlacklisted t = false -> getCachedPayload t = Some payload ->
     AuthorizeController.executeImpl isBlacklisted getCachedPayload key verify
       (req_token req)
     = (AuthorizeController.ok payload,
        [AuthorizeController.IsBlacklisted t;
         AuthorizeController.GetCachedPayload t])).
Proof.
  intros link. split.
  - destruct (authorize_to_cache_lookup req w t Htoken Hblack) as (k & Hrun & ->).
    unfold serve, events_since. rewrite Hrun, Hhit, Hkind.
    unfold bind, Server.call_validateRefreshTokenCookie, bind, log, ask,
      add_cookies, on_world, ret.
    cbn [fst snd world res_cookies now tokenCache tokenBlacklistCache
         TokenStore trace].
    fold link.
    repeat split; [| | apply rest_has_no_iat | apply rest_has_no_exp].
    + destruct (link_error link); cbn [snd world trace];
        rewrite <- app_assoc; apply drop_app_length.
    + by destruct (link_error link).
  - intros isB getC key verify payload Hb Hc.
    by apply executeImpl_cache_hit.
Qed.


End CacheHit.

(** ** Writes to the stores *)

Lemma tokenBlacklistCache_setKey_run (k : string) (v : jsobj) (ttl : option Z)
    (c : Ctx) :
  tokenBlacklistCache_setKey k v ttl c =
  (Continue (fst (Redis.setKey (now (world c)) k v ttl
                    (tokenBlacklistCache (world c)))),
   {| world :=
        {| now := now (world c); tokenCache := tokenCache (world c);
           tokenBlacklistCache :=
             snd (Redis.setKey (now (world c)) k v ttl
                    (tokenBlacklistCache (world c)));
           TokenStore := TokenStore (world c);
           trace := (trace (world c) ++ [BlacklistSet k ttl])%list |};
      res_cookies := res_cookies c |}).
Proof.
  unfold tokenBlacklistCache_setKey, bind, log, ask, on_world, ret,
    with_tokenBlacklistCache. simpl.
  destruct (Redis.setKey _ _ _ _ _) as [r c']. reflexivity.
Qed.

Lemma tokenCache_setKey_run (k : string) (v : jsobj) (ttl : option Z) (c : Ctx) :
  tokenCache_setKey k v ttl c =
  (Continue (fst (Redis.setKey (now (world c)) k v ttl (tokenCache (world c)))),
   {| world :=
        {| now := now (world c);
           tokenCache :=
             snd (Redis.setKey (now (world c)) k v ttl (tokenCache (world c)));
           tokenBlacklistCache := tokenBlacklistCache (world c);
           TokenStore := TokenStore (world c);
           trace := (trace (world c) ++ [CacheSet k ttl])%list |};
      res_cookies := res_cookies c |}).
Proof.
  unfold tokenCache_setKey, bind, log, ask, on_world, ret, with_tokenCache. simpl.
  destruct (Redis.setKey _ _ _ _ _) as [r c']. reflexivity.
Qed.

(** A write that the handlers take as done: the TTL was a positive number
    and the entry expires that many seconds after the write. *)
Lemma setKey_done (n : Z) (k : string) (v : jsobj) (ttl : option Z)
    (c : Redis.RedisCacheManager) :
  Server.set_failed (fst (Redis.setKey n k v ttl c)) = false ->
  exists T, ttl = Some T /\ 0 < T /\
    Redis.entries (snd (Redis.setKey n k v ttl c))
    = <[k := {| Redis.value := v; Redis.expires_at := n + T |}]> (Redis.entries c).
Proof.
  unfold Redis.setKey, Server.set_failed.
  destruct (Redis.fault_at 0 c); [discriminate|].
  destruct ttl as [T|]; [| discriminate].
  destruct (0 <? T) eqn:HT; [| discriminate].
  intros _. exists T. repeat split. by apply Z.ltb_lt.
Qed.

Lemma js_sub_Some (a b : option Z) (T : Z) :
  js_sub a b = Some T -> exists x y, a = Some x /\ b = Some y /\ T = x - y.
Proof.
  destruct a as [x|], b as [y|]; simpl; try discriminate.
  intros [= <-]. by exists x, y.
Qed.

(** What the store holds for an entry, at any time. *)
Lemma live_entry (n : Z) (k : string) (c : Redis.RedisCacheManager)
    (v : jsobj) (until : Z) :
  Redis.entries c !! k = Some {| Redis.value := v; Redis.expires_at := until |} ->
  Redis.live n k c = if n <? until then Some v else None.
Proof. intros E. unfold Redis.live. by rewrite E. Qed.

Section SignOut.

Context {C : Collaborators}.

(** C3 (amended). Every successful sign-out of a token with timestamps
    [iat] and [exp] writes the blacklist entry with TTL [exp - iat], the
    whole lifetime of the token and not what remains of it: the entry is
    held until [exp - iat] seconds after the sign-out and is gone from then
    on. *)
Theorem C3_sign_out_blacklist_ttl (req : Request) (w : World) (r : Response)
    (Hsent : fst (serve (Server.sign_out req) w) = Sent r)
    (Hsuccess : body r = Text "SUCCESS") :
  exists t decodedToken exp iat,
    present (req_token req) = Some t /\
    jwt_verify t (now w) = Decoded decodedToken /\
    js_num decodedToken "exp" = Some exp /\
    js_num decodedToken "iat" = Some iat /\
    events_since w (snd (serve (Server.sign_out req) w))
    = [BlacklistGet t; JwtVerify t; BlacklistSet t (Some (exp - iat))] /\
    forall n,
      Redis.live n t (tokenBlacklistCache (snd (serve (Server.sign_out req) w)))
      = if n <? now w + (exp - iat)
        then Some {[ "created_at" := VNum (now w) ]}
        else None.
Proof.
  remember (serve (Server.sign_out req) w) as out eqn:Hout.
  unfold serve, Server.sign_out in Hout.
  destruct (present (req_token req)) as [t|] eqn:Ht;
    [| subst out; injection Hsent as <-; discriminate].
  unfold bind at 1 in Hout. rewrite tokenBlacklistCache_getKey_run in Hout.
  cbn [world res_cookies] in Hout.
  destruct (Redis.get_cachedVal (blacklist_lookup w t));
    [subst out; injection Hsent as <-; discriminate |].
  cbn [defined] in Hout.
  unfold bind at 1, Server.call_jwt_verify, bind, log, ask, on_world, ret in Hout.
  cbn [fst snd world res_cookies now tokenCache tokenBlacklistCache
       TokenStore trace] in Hout.
  destruct (jwt_verify t (now w)) as [name | d] eqn:Hv;
    [subst out; injection Hsent as <-; discriminate |].
  unfold Server.sign_out_verified, bind, ask in Hout.
  rewrite tokenBlacklistCache_setKey_run in Hout.
  cbn [fst snd world res_cookies now tokenCache tokenBlacklistCache
       TokenStore trace] in Hout.
  destruct (Server.set_failed _) eqn:Hset;
    [subst out; injection Hsent as <-; discriminate |].
  destruct (setKey_done _ _ _ _ _ Hset) as (T & HT & Hpos & Hentries).
  destruct (js_sub_Some _ _ _ HT) as (exp & iat & Hexp & Hiat & ->).
  unfold send in Hout. cbv beta iota in Hout.
  exists t, d, exp, iat. subst out. unfold events_since.
  cbn [fst snd world trace tokenBlacklistCache].
  repeat split; try assumption.
  - rewrite HT, <- !app_assoc. apply drop_app_length.
  - intros n. apply live_entry. rewrite Hentries. apply lookup_insert_eq.
Qed.

End SignOut.

(** ** The lifetime of cache entries *)

Section CacheLifetime.

Context {C : Collaborators}.

(** The three places that write the session cache all pass [exp - iat] as
    the TTL. First the tail shared by [/sign-in] and [/refresh]: when the
    ledger record and the cache write go through, the entry of the new
    access token is held until [exp - iat] seconds after the write. *)
Lemma issue_tokens_cache_entry (req : Request) (u : UserRecord) (c : Ctx) :
  let w := world c in
  let accessToken := fst (generateUserTokens u (60 * 60) (60 * 60 * 24 * 7) (now w)) in
  let c' := snd (Server.issue_tokens req u c) in
  db_fault (TokenStore w) = false ->
  Redis.fault_at 0 (tokenCache w) = false ->
  0 < at_exp accessToken - at_iat accessToken ->
  CacheSet (at_token accessToken)
           (Some (at_exp accessToken - at_iat accessToken)) ∈ trace (world c') /\
  forall n,
    Redis.live n (at_token accessToken) (tokenCache (world c'))
    = if n <? now w + (at_exp accessToken - at_iat accessToken)
      then Some (<["iat" := VNum (at_iat accessToken)]>
                   (<["exp" := VNum (at_exp accessToken)]>
                      (at_payload accessToken)))
      else None.
Proof.
  intros w accessToken c' Hdb Hfault Hpos. subst c'.
  unfold Server.issue_tokens, bind at 1, Server.call_generateUserTokens,
    bind, log, ask, on_world, ret.
  cbn [fst snd world res_cookies now tokenCache tokenBlacklistCache
       TokenStore trace].
  fold w. destruct (generateUserTokens u (60 * 60) (60 * 60 * 24 * 7) (now w))
    as [a r] eqn:Hgen.
  cbn [fst] in accessToken. subst accessToken.
  unfold TokenStore_create, bind, log, ask, on_world, ret.
  cbn [fst snd world res_cookies now tokenCache tokenBlacklistCache
       TokenStore trace with_TokenStore].
  fold w. rewrite Hdb. cbn [negb fst snd world res_cookies].
  rewrite tokenCache_setKey_run.
  cbn [fst snd world res_cookies now tokenCache tokenBlacklistCache
       TokenStore trace with_TokenStore access_token refresh_token].
  fold w. unfold Redis.setKey. rewrite Hfault.
  apply Z.ltb_lt in Hpos. rewrite Hpos.
  cbn [fst snd Server.set_failed Redis.set_status Redis.set_cacheError
       defined String.eqb Ascii.eqb Bool.eqb negb orb].
  unfold res_cookie, add_cookies, send.
  cbn [fst snd world res_cookies now tokenCache tokenBlacklistCache
       TokenStore trace].
  split.
  - apply elem_of_app; right. apply list_elem_of_here.
  - intros n. apply live_entry. cbn [Redis.entries]. apply lookup_insert_eq.
Qed.

(** Then the fallback verification of [/authorize]: the decoded token is
    cached with TTL [exp - iat], counted from the time of the request and
    not from [iat]. *)
Lemma authorize_fallback_cache_entry
    (req : Request) (w : World) (t : string) (decoded : jsobj) (exp iat : Z) :
  present (req_token req) = Some t ->
  clean_miss (blacklist_lookup w t) ->
  clean_miss (cache_lookup w t) ->
  jwt_verify t (now w) = Decoded decoded ->
  link_error (validateRefreshTokenCookie req t (TokenStore w)) = None ->
  js_num decoded "exp" = Some exp -> js_num decoded "iat" = Some iat ->
  0 < exp - iat ->
  Redis.fault_at 1 (tokenCache w) = false ->
  events_since w (snd (serve (Server.authorize req) w))
  = [BlacklistGet t; CacheGet t; JwtVerify t; LinkCheck t;
     CacheSet t (Some (exp - iat))] /\
  forall n,
    Redis.live n t (tokenCache (snd (serve (Server.authorize req) w)))
    = if n <? now w + (exp - iat) then Some decoded else None.
Proof.
  intros Ht Hb [Hce Hcv] Hv Hlink Hexp Hiat Hpos Hfault.
  destruct (authorize_to_cache_lookup req w t Ht Hb) as (k & Hrun & ->).
  unfold serve, events_since. rewrite Hrun, Hcv, Hce. cbn [defined].
  unfold bind at 1, Server.call_jwt_verify, bind, log, ask, on_world, ret.
  cbn [fst snd world res_cookies now tokenCache tokenBlacklistCache
       TokenStore trace].
  rewrite Hv. unfold Server.authorize_verified, bind at 1,
    Server.call_validateRefreshTokenCookie, bind, log, ask, add_cookies,
    on_world, ret.
  cbn [fst snd world res_cookies now tokenCache tokenBlacklistCache
       TokenStore trace].
  rewrite Hlink, tokenCache_setKey_run.
  cbn [fst snd world res_cookies now tokenCache tokenBlacklistCache
       TokenStore trace].
  rewrite Hexp, Hiat. cbn [js_sub].
  unfold Redis.setKey. rewrite fault_at_after_call, Hfault.
  apply Z.ltb_lt in Hpos. rewrite Hpos.
  cbn [fst snd Server.set_failed Redis.set_status Redis.set_cacheError
       defined String.eqb Ascii.eqb Bool.eqb negb orb].
  unfold send.
  cbn [fst snd world res_cookies now tokenCache tokenBlacklistCache
       TokenStore trace].
  split.
  - rewrite <- !app_assoc. apply drop_app_length.
  - intros n. apply live_entry. cbn [Redis.entries]. apply lookup_insert_eq.
Qed.

End CacheLifetime.

(** ** Store faults *)

Section Faults.

Context {C : Collaborators}.

(** [/authorize] and [/refresh] end with a 500 when the blacklist lookup
    fails, [/authorize] also when the cache lookup fails. *)
Lemma authorize_blacklist_fault (req : Request) (w : World) (t err : string) :
  present (req_token req) = Some t ->
  Redis.get_cacheError (blacklist_lookup w t) = Some err ->
  fst (serve (Server.authorize req) w)
  = Sent {| status := 500; body := ErrorCode "PROBLEM CHECKING BLACKLIST CACHE";
            cookies := [] |} /\
  events_since w (snd (serve (Server.authorize req) w)) = [BlacklistGet t].
Proof.
  intros Ht He. unfold serve, events_since, Server.authorize. rewrite Ht.
  unfold bind. rewrite tokenBlacklistCache_getKey_run. cbn [world res_cookies].
  rewrite He. simpl. split; [reflexivity | apply drop_app_length].
Qed.

Lemma refresh_blacklist_fault (req : Request) (w : World) (t err : string) :
  present (req_token req) = Some t ->
  Redis.get_cacheError (blacklist_lookup w t) = Some err ->
  fst (serve (Server.refresh req) w)
  = Sent {| status := 500; body := ErrorCode "PROBLEM CHECKING BLACKLIST CACHE";
            cookies := [] |} /\
  events_since w (snd (serve (Server.refresh req) w)) = [BlacklistGet t].
Proof.
  intros Ht He. unfold serve, events_since, Server.refresh. rewrite Ht.
  unfold bind. rewrite tokenBlacklistCache_getKey_run. cbn [world res_cookies].
  rewrite He. simpl. split; [reflexivity | apply drop_app_length].
Qed.

(** X22. When the session-cache lookup of [/authorize] fails for a token
    that is not blacklisted, the answer is 500 PROBLEM READING CACHE and the
    signature is not verified. *)
Lemma authorize_cache_fault (req : Request) (w : World) (t err : string) :
  present (req_token req) = Some t ->
  clean_miss (blacklist_lookup w t) ->
  Redis.get_cacheError (cache_lookup w t) = Some err ->
  Redis.get_cachedVal (cache_lookup w t) = None ->
  fst (serve (Server.authorize req) w)
  = Sent {| status := 500; body := ErrorCode "PROBLEM READING CACHE";
            cookies := [] |} /\
  events_since w (snd (serve (Server.authorize req) w))
  = [BlacklistGet t; CacheGet t].
Proof.
  intros Ht Hb He Hv.
  destruct (authorize_to_cache_lookup req w t Ht Hb) as (k & Hrun & ->).
  unfold serve, events_since. rewrite Hrun, Hv, He. simpl.
  split; [reflexivity | apply drop_app_length].
Qed.

(** [/sign-out] goes on after a failed blacklist lookup as after a lookup
    that found nothing: the next call is the signature verification. *)
Lemma sign_out_blacklist_fault (req : Request) (w : World) (t err : string) :
  present (req_token req) = Some t ->
  Redis.get_cacheError (blacklist_lookup w t) = Some err ->
  Redis.get_cachedVal (blacklist_lookup w t) = None ->
  exists rest,
    events_since w (snd (serve (Server.sign_out req) w))
    = BlacklistGet t :: JwtVerify t :: rest.
Proof.
  intros Ht He Hv. rewrite serve_world. unfold Server.sign_out. rewrite Ht.
  unfold bind at 1. rewrite tokenBlacklistCache_getKey_run.
  cbn [world res_cookies]. rewrite Hv. cbn [defined].
  unfold bind at 1, Server.call_jwt_verify, bind, log, ask, on_world, ret.
  cbn [fst snd world res_cookies now tokenCache tokenBlacklistCache
       TokenStore trace].
  match goal with
  | |- context [Server.sign_out_verified ?a ?v ?c] =>
      assert (appends (Server.sign_out_verified a v)) as Happ
        by (unfold Server.sign_out_verified; appends_all);
      destruct (Happ c) as [rest E]
  end.
  exists rest. apply events_since_app. rewrite E.
  cbn [world trace]. by rewrite <- !app_assoc.
Qed.

End Faults.

(** ** The claims on concrete runs *)

Section Runs.

Import Scenario.

(** C2. The entry that the fallback verification writes outlives the token.
    The token "eyJ.user" was issued at 0 and expires at 3600. Presented at
    1800 with nothing cached, it is verified and cached with TTL
    3600 = exp - iat. At 4000 its signature has expired, yet the cache still
    answers with its claims and [/authorize] accepts it from the cache. The
    TypeScript controller passes the same TTL to [cacheToken]. *)
Theorem C2_fallback_entry_outlives_token :
  let w1 := snd (serve (Server.authorize (bearer "eyJ.user")) (fresh 1800)) in
  events_since (fresh 1800) w1
  = [BlacklistGet "eyJ.user"; CacheGet "eyJ.user"; JwtVerify "eyJ.user";
     LinkCheck "eyJ.user"; CacheSet "eyJ.user" (Some 3600)] /\
  js_num (decoded_of "USER") "exp" = Some 3600 /\
  jwt_verify "eyJ.user" 4000 = VerifyError "TokenExpiredError" /\
  Redis.get_cachedVal (cache_lookup (at_time 4000 w1) "eyJ.user")
  = Some (decoded_of "USER") /\
  fst (serve (Server.authorize (bearer "eyJ.user")) (at_time 4000 w1))
  = Sent {| status := 200; body := Json (payload_of "USER"); cookies := [] |} /\
  snd (AuthorizeController.executeImpl (fun _ => false) (fun _ => None)
         (Some "secret") (fun t => jwt_verify t 1800) (Some "eyJ.user"))
  = [AuthorizeController.IsBlacklisted "eyJ.user";
     AuthorizeController.GetCachedPayload "eyJ.user";
     AuthorizeController.Verify "eyJ.user";
     AuthorizeController.CacheToken "eyJ.user" (payload_of "USER") (Some 3600)].
Proof. vm_compute. repeat split. Qed.

(** C4. [/sign-out] does not stop at a failed blacklist read. With a
    blacklist store whose next call fails, [/authorize] and [/refresh]
    answer 500, but [/sign-out] of the valid token "eyJ.user" goes on to
    the signature verification and the blacklist write and answers
    SUCCESS. *)
Theorem C4_sign_out_ignores_blacklist_fault :
  let w := blacklist_read_fails (fresh 1800) in
  Redis.get_cacheError (blacklist_lookup w "eyJ.user") = Some "REDIS ERROR" /\
  fst (serve (Server.authorize (bearer "eyJ.user")) w)
  = Sent {| status := 500; body := ErrorCode "PROBLEM CHECKING BLACKLIST CACHE";
            cookies := [] |} /\
  fst (serve (Server.refresh (bearer "eyJ.user")) w)
  = Sent {| status := 500; body := ErrorCode "PROBLEM CHECKING BLACKLIST CACHE";
            cookies := [] |} /\
  fst (serve (Server.sign_out (bearer "eyJ.user")) w)
  = Sent {| status := 200; body := Text "SUCCESS"; cookies := [] |} /\
  events_since w (snd (serve (Server.sign_out (bearer "eyJ.user")) w))
  = [BlacklistGet "eyJ.user"; JwtVerify "eyJ.user";
     BlacklistSet "eyJ.user" (Some 3600)].
Proof. vm_compute. repeat split. Qed.

(** C3 fails as stated: signing out "eyJ.user" (issued at 0, expiring at
    3600) at 1800 writes the blacklist entry with TTL 3600, not with the
    1800 seconds that remain, and at 4000, after the natural expiry, the
    token is still blacklisted. *)
Lemma C3_counterexample :
  let w' := snd (serve (Server.sign_out (bearer "eyJ.user")) (fresh 1800)) in
  fst (serve (Server.sign_out (bearer "eyJ.user")) (fresh 1800))
  = Sent {| status := 200; body := Text "SUCCESS"; cookies := [] |} /\
  events_since (fresh 1800) w'
  = [BlacklistGet "eyJ.user"; JwtVerify "eyJ.user";
     BlacklistSet "eyJ.user" (Some 3600)] /\
  Some 3600 <> Some (3600 - 1800) /\
  3600 < 4000 /\
  Redis.get_cachedVal (blacklist_lookup (at_time 4000 w') "eyJ.user")
  = Some {[ "created_at" := VNum 1800 ]}.
Proof. vm_compute. repeat split; discriminate. Qed.


(** C9 fails as stated: with USER claims cached under the token "SYS-7",
    [/authorize] answers from the cache without a linkage check; and the
    TypeScript controller answers the cache hit of the token "eyJ.user" with
    USER claims after the blacklist test and the cache read alone. *)
Lemma C9_counterexample :
  let w := caching "SYS-7" (decoded_of "USER") 3600 (fresh 100) in
  Redis.get_cachedVal (cache_lookup w "SYS-7") = Some (decoded_of "USER") /\
  decoded_of "USER" !! "access_type" = Some (VStr "USER") /\
  fst (serve (Server.authorize (bearer "SYS-7")) w)
  = Sent {| status := 200; body := Json (payload_of "USER"); cookies := [] |} /\
  events_since w (snd (serve (Server.authorize (bearer "SYS-7")) w))
  = [BlacklistGet "SYS-7"; CacheGet "SYS-7"; CacheDelete "SYS-7"] /\
  AuthorizeController.executeImpl (fun _ => false)
    (fun t => if String.eqb t "eyJ.user" then Some (payload_of "USER") else None)
    (Some "secret") (fun t => jwt_verify t 100) (Some "eyJ.user")
  = (AuthorizeController.ok (payload_of "USER"),
     [AuthorizeController.IsBlacklisted "eyJ.user";
      AuthorizeController.GetCachedPayload "eyJ.user"]).
Proof. vm_compute. repeat split. Qed.

(** C7 fails as stated: a refresh with the access token "eyJ.user" and no
    refresh cookie, while the blacklist store fails, is answered 500, which
    is no client error; the missing cookie is never looked at. *)
Lemma C7_counterexample :
  let req := without_cookie "eyJ.user" in
  let w := blacklist_read_fails (fresh 100) in
  present (req_token req) = Some "eyJ.user" /\
  present (req_refresh_cookie req) = None /\
  fst (serve (Server.refresh req) w)
  = Sent {| status := 500; body := ErrorCode "PROBLEM CHECKING BLACKLIST CACHE";
            cookies := [] |} /\
  ~ client_error {| status := 500;
                    body := ErrorCode "PROBLEM CHECKING BLACKLIST CACHE";
                    cookies := [] |}.
Proof.
  repeat split; try (vm_compute; reflexivity).
  unfold client_error. simpl. lia.
Qed.

End Runs.

(** ** The User class *)

(** C10. A freshly constructed [User] does not exist, and on every user for
    which [exists()] is false each of [hasPassword], [confirmedEmail],
    [getFields] and [initUserTokens] throws NO USER INITIALIZED instead of
    returning a value. *)
Theorem C10_uninitialized_user_throws
    (isPasswordValid : string -> string -> bool)
    (TokenDataPair : Type) (createUserTokenData : UserRecord -> TokenDataPair)
    (this : User.User) (submitted : string)
    (Hnone : User.exists_ this = false) :
  User.exists_ User.constructor = false /\
  User.hasPassword isPasswordValid this submitted
  = User.Throws "NO USER INITIALIZED" /\
  User.confirmedEmail this = User.Throws "NO USER INITIALIZED" /\
  User.getFields this = User.Throws "NO USER INITIALIZED" /\
  User.initUserTokens TokenDataPair createUserTokenData this
  = User.Throws "NO USER INITIALIZED".
Proof.
  unfold User.hasPassword, User.confirmedEmail, User.getFields,
    User.initUserTokens.
  rewrite Hnone. repeat split.
Qed.

(** ** The theorems at concrete inputs *)

Section Witnesses.

Import Scenario.

Lemma C1_witness :
  let req := bearer "eyJ.user" in
  let w := blacklisting "eyJ.user" 3600
             (caching "eyJ.user" (decoded_of "USER") 3600 (fresh 100)) in
  present (req_token req) = Some "eyJ.user" /\
  blacklisted w "eyJ.user" /\
  is_Some (Redis.get_cachedVal (cache_lookup w "eyJ.user")) /\
  fst (serve (Server.authorize req) w) = Sent token_invalid /\
  fst (serve (Server.refresh req) w) = Sent token_invalid.
Proof.
  intros req w.
  assert (Ht : present (req_token req) = Some "eyJ.user") by reflexivity.
  assert (Hb : blacklisted w "eyJ.user") by (eexists; vm_compute; reflexivity).
  pose proof (proj1 (C1_blacklisted_token_rejected req w) "eyJ.user" Ht Hb)
    as [[Ha _] [Hr _]].
  split; [exact Ht |]. split; [exact Hb |].
  split; [eexists; vm_compute; reflexivity |].
  split; assumption.
Defined.

Lemma C3_witness :
  let req := bearer "eyJ.user" in
  let r := {| status := 200; body := Text "SUCCESS"; cookies := [] |} in
  fst (serve (Server.sign_out req) (fresh 1800)) = Sent r /\
  body r = Text "SUCCESS" /\
  exists t decodedToken exp iat,
    present (req_token req) = Some t /\
    jwt_verify t (now (fresh 1800)) = Decoded decodedToken /\
    js_num decodedToken "exp" = Some exp /\
    js_num decodedToken "iat" = Some iat /\
    events_since (fresh 1800) (snd (serve (Server.sign_out req) (fresh 1800)))
    = [BlacklistGet t; JwtVerify t; BlacklistSet t (Some (exp - iat))] /\
    forall n,
      Redis.live n t
        (tokenBlacklistCache (snd (serve (Server.sign_out req) (fresh 1800))))
      = if n <? now (fresh 1800) + (exp - iat)
        then Some {[ "created_at" := VNum (now (fresh 1800)) ]}
        else None.
Proof.
  intros req r.
  assert (Hs : fst (serve (Server.sign_out req) (fresh 1800)) = Sent r)
    by (vm_compute; reflexivity).
  assert (Hb : body r = Text "SUCCESS") by reflexivity.
  split; [exact Hs |]. split; [exact Hb |].
  exact (C3_sign_out_blacklist_ttl req (fresh 1800) r Hs Hb).
Defined.

Lemma C5_witness :
  let req1 := credentials "nobody@x.com" "p1" in
  let req2 := credentials "a@x.com" "wrong" in
  fetchUserByEmail "nobody@x.com"
  = {| fetched_user := None; fetch_error := None |} /\
  fetchUserByEmail "a@x.com"
  = {| fetched_user := Some alice; fetch_error := None |} /\
  verifyUserPassword "wrong" (password alice) = false /\
  fst (serve (Server.sign_in req1) (fresh 100)) = Sent not_recognized /\
  fst (serve (Server.sign_in req2) (fresh 200)) = Sent not_recognized.
Proof.
  intros req1 req2.
  split; [reflexivity |]. split; [reflexivity |]. split; [reflexivity |].
  apply (C5_sign_in_rejections_identical req1 req2 (fresh 100) (fresh 200)
           "nobody@x.com" "p1" "a@x.com" "wrong" alice); reflexivity.
Defined.


Lemma C7_witness :
  let req := {| req_token := Some "eyJ.user"; req_refresh_cookie := None;
                req_email := None; req_password := None;
                req_requester := "curl" |} in
  present (req_token req) = Some "eyJ.user" /\
  present (req_refresh_cookie req) = None /\
  clean_miss (blacklist_lookup (fresh 100) "eyJ.user") /\
  events_since (fresh 100) (snd (serve (Server.refresh req) (fresh 100)))
  = [BlacklistGet "eyJ.user"] /\
  fst (serve (Server.refresh req) (fresh 100))
  = Sent {| status := 401; body := ErrorCode "REFRESH TOKEN INVALID";
            cookies := [] |}.
Proof.
  intros req.
  assert (Ht : present (req_token req) = Some "eyJ.user") by reflexivity.
  assert (Hc : present (req_refresh_cookie req) = None) by reflexivity.
  assert (Hm : clean_miss (blacklist_lookup (fresh 100) "eyJ.user"))
    by (split; reflexivity).
  pose proof (proj2 (C7_refresh_missing_inputs req (fresh 100)) "eyJ.user" Ht Hc)
    as (Hev & _ & _ & Hans & _).
  split; [exact Ht |]. split; [exact Hc |]. split; [exact Hm |].
  split; [exact Hev | exact (Hans Hm)].
Defined.

Lemma C8_witness :
  let req := bearer "eyJ.user" in
  jwt_verify "eyJ.user" (now (fresh 4000)) = VerifyError "TokenExpiredError" /\
  clean_miss (blacklist_lookup (fresh 4000) "eyJ.user") /\
  clean_miss (cache_lookup (fresh 4000) "eyJ.user") /\
  fst (serve (Server.authorize req) (fresh 4000))
  = Sent {| status := 401; body := ErrorCode "TOKEN EXPIRED"; cookies := [] |}.
Proof.
  intros req.
  split; [reflexivity |]. split; [split; reflexivity |].
  split; [split; reflexivity |].
  apply (C8_fallback_verification_failures req (fresh 4000) "eyJ.user"
           "TokenExpiredError");
    first [reflexivity | split; reflexivity].
Defined.

Lemma C9_witness :
  let req := bearer "eyJ.user" in
  let w := caching "eyJ.user" (decoded_of "USER") 3600 (fresh 100) in
  slice_is_SYS "eyJ.user" = false /\
  Redis.get_cachedVal (cache_lookup w "eyJ.user") = Some (decoded_of "USER") /\
  events_since w (snd (serve (Server.authorize req) w))
  = [BlacklistGet "eyJ.user"; CacheGet "eyJ.user"; LinkCheck "eyJ.user"] /\
  rest_without_exp_iat (decoded_of "USER") !! "iat" = None /\
  rest_without_exp_iat (decoded_of "USER") !! "exp" = None.
Proof.
  intros req w.
  assert (Hh : Redis.get_cachedVal (cache_lookup w "eyJ.user")
               = Some (decoded_of "USER")) by (vm_compute; reflexivity).
  assert (Hm : clean_miss (blacklist_lookup w "eyJ.user"))
    by (split; vm_compute; reflexivity).
  pose proof (C9_cache_hit_linkage_check req w "eyJ.user" (decoded_of "USER")
                eq_refl Hm Hh eq_refl) as [(Hev & _ & Hi & He) _].
  split; [reflexivity |]. split; [exact Hh |]. split; [exact Hev |].
  split; [exact Hi | exact He].
Defined.

End Witnesses.

Lemma C10_witness :
  User.exists_ User.constructor = false /\
  User.hasPassword String.eqb User.constructor "p1"
  = User.Throws "NO USER INITIALIZED" /\
  User.confirmedEmail User.constructor = User.Throws "NO USER INITIALIZED" /\
  User.getFields User.constructor = User.Throws "NO USER INITIALIZED" /\
  User.initUserTokens string _id User.constructor
  = User.Throws "NO USER INITIALIZED".
Proof.
  exact (C10_uninitialized_user_throws String.eqb string _id User.constructor
           "p1" eq_refl).
Defined.

(** ** Issuing tokens: sign-in and refresh *)

(** Unfolds the plumbing of a handler and computes the projections. *)
Ltac plumbing :=
  unfold Server.call_fetchUserByEmail, Server.call_fetchUserById,
    Server.call_verifyUserPassword, Server.call_generateUserTokens,
    Server.call_validateRefreshTokenCookie, Server.call_jwt_verify,
    TokenStore_create, TokenStore_findOne, tokenCache_deleteKey,
    res_clearCookie, res_cookie, bind, log, ask, on_world, ret, add_cookies,
    send, throw.

Ltac projections :=
  cbn [fst snd world res_cookies now tokenCache tokenBlacklistCache TokenStore
       trace with_tokenCache with_tokenBlacklistCache with_TokenStore defined
       negb access_token refresh_token records db_faults fetch_error
       fetched_user link_error link_cookies].

Lemma setKey_works (n : Z) (k : string) (v : jsobj) (T : Z)
    (c : Redis.RedisCacheManager) :
  Redis.fault_at 0 c = false -> 0 < T ->
  Redis.setKey n k v (Some T) c =
  ({| Redis.set_status := "OK"; Redis.set_cacheError := None |},
   {| Redis.entries :=
        <[k := {| Redis.value := v; Redis.expires_at := n + T |}]> (Redis.entries c);
      Redis.faults := tail (Redis.faults c) |}).
Proof.
  intros Hf HT. unfold Redis.setKey. rewrite Hf.
  apply Z.ltb_lt in HT. by rewrite HT.
Qed.

Lemma setKey_fault (n : Z) (k : string) (v : jsobj) (ttl : option Z)
    (c : Redis.RedisCacheManager) :
  Redis.fault_at 0 c = true ->
  Redis.setKey n k v ttl c =
  ({| Redis.set_status := ""; Redis.set_cacheError := Some "REDIS ERROR" |},
   Redis.after_call c).
Proof. intros Hf. unfold Redis.setKey. by rewrite Hf. Qed.

Section Issuing.

Context {C : Collaborators}.

Lemma issue_tokens_ok (req : Request) (u : UserRecord) (c : Ctx)
    (a : AccessToken) (r : RefreshToken) :
  generateUserTokens u (60 * 60) (60 * 60 * 24 * 7) (now (world c)) = (a, r) ->
  db_fault (TokenStore (world c)) = false ->
  Redis.fault_at 0 (tokenCache (world c)) = false ->
  0 < at_exp a - at_iat a ->
  Server.issue_tokens req u c =
  (Respond {| status := 200;
              body := Json (at_payload a ∪ {[ "access_token" := VStr (at_token a) ]});
              cookies := (res_cookies c ++ [SetCookie (rt_token r) (rt_expDate r)])%list |},
   {| world :=
        {| now := now (world c);
           tokenCache :=
             {| Redis.entries :=
                  <[at_token a := {| Redis.value :=
                                       <["iat" := VNum (at_iat a)]>
                                         (<["exp" := VNum (at_exp a)]>
                                            (at_payload a));
                                     Redis.expires_at :=
                                       now (world c) + (at_exp a - at_iat a) |}]>
                    (Redis.entries (tokenCache (world c)));
                Redis.faults := tail (Redis.faults (tokenCache (world c))) |};
           tokenBlacklistCache := tokenBlacklistCache (world c);
           TokenStore :=
             {| records := (records (TokenStore (world c)) ++ [{| user_id := _id u; access_token := at_token a;
                      refresh_token := rt_token r;
                      access_token_exp_date := at_expDate a;
                      refresh_token_exp_date := rt_expDate r;
                      requester_data := req_requester req |}])%list;
                db_faults := tail (db_faults (TokenStore (world c))) |};
           trace := (trace (world c)
                     ++ [GenerateTokens (_id u);
                         LedgerCreate (at_token a) (rt_token r);
                         CacheSet (at_token a) (Some (at_exp a - at_iat a))])%list |};
      res_cookies := (res_cookies c ++ [SetCookie (rt_token r) (rt_expDate r)])%list |}).
Proof.
  intros Hgen Hdb Hfault Hpos.
  unfold Server.issue_tokens. plumbing. projections.
  rewrite Hgen. projections. rewrite Hdb. projections.
  rewrite tokenCache_setKey_run. projections.
  rewrite (setKey_works _ _ _ _ _ Hfault Hpos).
  cbn [fst snd Server.set_failed Redis.set_status Redis.set_cacheError
       defined String.eqb Ascii.eqb Bool.eqb negb orb].
  rewrite <- !app_assoc. reflexivity.
Qed.


(** When the cache write fails, the ledger document stays and no cookie is
    set. *)
Lemma issue_tokens_cache_fault (req : Request) (u : UserRecord) (c : Ctx)
    (a : AccessToken) (r : RefreshToken) :
  generateUserTokens u (60 * 60) (60 * 60 * 24 * 7) (now (world c)) = (a, r) ->
  db_fault (TokenStore (world c)) = false ->
  Redis.fault_at 0 (tokenCache (world c)) = true ->
  Server.issue_tokens req u c =
  (Respond {| status := 500; body := ErrorCode "PROBLEM STORING CREDENTIALS";
              cookies := res_cookies c |},
   {| world :=
        {| now := now (world c);
           tokenCache := Redis.after_call (tokenCache (world c));
           tokenBlacklistCache := tokenBlacklistCache (world c);
           TokenStore :=
             {| records := (records (TokenStore (world c)) ++ [{| user_id := _id u; access_token := at_token a;
                      refresh_token := rt_token r;
                      access_token_exp_date := at_expDate a;
                      refresh_token_exp_date := rt_expDate r;
                      requester_data := req_requester req |}])%list;
                db_faults := tail (db_faults (TokenStore (world c))) |};
           trace := (trace (world c)
                     ++ [GenerateTokens (_id u);
                         LedgerCreate (at_token a) (rt_token r);
                         CacheSet (at_token a) (Some (at_exp a - at_iat a))])%list |};
      res_cookies := res_cookies c |}).
Proof.
  intros Hgen Hdb Hfault.
  unfold Server.issue_tokens. plumbing. projections.
  rewrite Hgen. projections. rewrite Hdb. projections.
  rewrite tokenCache_setKey_run. projections.
  rewrite (setKey_fault _ _ _ _ _ Hfault).
  cbn [fst snd Server.set_failed Redis.set_status Redis.set_cacheError
       defined String.eqb Ascii.eqb Bool.eqb negb orb].
  rewrite <- !app_assoc. reflexivity.
Qed.

End Issuing.

Lemma serve_respond (h : Handler Empty_set) (w : World) (r : Response) (c : Ctx) :
  h {| world := w; res_cookies := [] |} = (Respond r, c) ->
  serve h w = (Sent r, world c).
Proof. intros E. unfold serve. by rewrite E. Qed.

Lemma serve_throw (h : Handler Empty_set) (w : World) (e : string) (c : Ctx) :
  h {| world := w; res_cookies := [] |} = (Throw e, c) ->
  serve h w = (Thrown e, world c).
Proof. intros E. unfold serve. by rewrite E. Qed.

Lemma serve_sent_inv (h : Handler Empty_set) (w : World) (r : Response) :
  fst (serve h w) = Sent r ->
  fst (h {| world := w; res_cookies := [] |}) = Respond r.
Proof.
  unfold serve. destruct (h _) as [[a | r' | e] c]; [destruct a | |];
    simpl; congruence.
Qed.

Lemma setKey_done_no_fault (n : Z) (k : string) (v : jsobj) (ttl : option Z)
    (c : Redis.RedisCacheManager) :
  Server.set_failed (fst (Redis.setKey n k v ttl c)) = false ->
  Redis.fault_at 0 c = false.
Proof.
  unfold Redis.setKey, Server.set_failed.
  destruct (Redis.fault_at 0 c); [discriminate | reflexivity].
Qed.

Section SignIn.

Context {C : Collaborators}.

(** Claims come out of [issue_tokens] only when the ledger document and the
    cache entry were both written. *)
Lemma issue_tokens_json (req : Request) (u : UserRecord) (c : Ctx)
    (r : Response) (o : jsobj) :
  fst (Server.issue_tokens req u c) = Respond r -> body r = Json o ->
  db_fault (TokenStore (world c)) = false /\
  Redis.fault_at 0 (tokenCache (world c)) = false /\
  0 < at_exp (fst (generateUserTokens u (60 * 60) (60 * 60 * 24 * 7) (now (world c))))
      - at_iat (fst (generateUserTokens u (60 * 60) (60 * 60 * 24 * 7) (now (world c)))).
Proof.
  unfold Server.issue_tokens. plumbing. projections.
  destruct (generateUserTokens u (60 * 60) (60 * 60 * 24 * 7) (now (world c)))
    as [a rt]. projections.
  destruct (db_fault (TokenStore (world c))); projections;
    [intros [= <-]; discriminate |].
  rewrite tokenCache_setKey_run. projections.
  destruct (Server.set_failed _) eqn:Hset; projections;
    [intros [= <-]; discriminate |].
  intros _ _. split; [reflexivity |]. split.
  - by apply setKey_done_no_fault in Hset.
  - apply setKey_done in Hset as (T & [= <-] & HT & _). exact HT.
Qed.

(** X1. A sign-in without an email or without a password (an empty string
    counts as none) is answered 400 and nothing is called. *)
Theorem sign_in_missing_credentials (req : Request) (w : World)
    (Hmissing : present (req_email req) = None \/ present (req_password req) = None) :
  serve (Server.sign_in req) w =
  (Sent {| status := 400; body := ErrorCode "MISSING EMAIL OR PASSWORD";
           cookies := [] |}, w).
Proof.
  unfold serve, Server.sign_in.
  destruct Hmissing as [-> | ->]; [| destruct (present (req_email req))];
    destruct w; reflexivity.
Qed.

(** X2. A sign-in with the password of a stored user, with the ledger and
    the cache write working, answers 200 with the claims and the access
    token and sets the refresh token as the cookie. Its calls are the user
    lookup, the password check, the minting, the ledger write and the cache
    write, in this order; the one ledger document of the pair is appended,
    and the cache then holds the claims with [exp] and [iat] under the
    access token, until [exp - iat] seconds after the request. *)
Theorem sign_in_success (req : Request) (w : World) (e p : string)
    (u : UserRecord) (a : AccessToken) (r : RefreshToken)
    (Hemail : present (req_email req) = Some e)
    (Hpass : present (req_password req) = Some p)
    (Huser : fetchUserByEmail e = {| fetched_user := Some u; fetch_error := None |})
    (Hvalid : verifyUserPassword p (password u) = true)
    (Hgen : generateUserTokens u (60 * 60) (60 * 60 * 24 * 7) (now w) = (a, r))
    (Hdb : db_fault (TokenStore w) = false)
    (Hcache : Redis.fault_at 0 (tokenCache w) = false)
    (Hlife : 0 < at_exp a - at_iat a) :
  let w' := snd (serve (Server.sign_in req) w) in
  fst (serve (Server.sign_in req) w)
  = Sent {| status := 200;
            body := Json (at_payload a ∪ {[ "access_token" := VStr (at_token a) ]});
            cookies := [SetCookie (rt_token r) (rt_expDate r)] |} /\
  events_since w w'
  = [FetchUserByEmail e; VerifyPassword; GenerateTokens (_id u);
     LedgerCreate (at_token a) (rt_token r);
     CacheSet (at_token a) (Some (at_exp a - at_iat a))] /\
  records (TokenStore w')
  = (records (TokenStore w)
     ++ [{| user_id := _id u; access_token := at_token a;
            refresh_token := rt_token r;
            access_token_exp_date := at_expDate a;
            refresh_token_exp_date := rt_expDate r;
            requester_data := req_requester req |}])%list /\
  Redis.entries (tokenCache w') !! at_token a
  = Some {| Redis.value :=
              <["iat" := VNum (at_iat a)]>
                (<["exp" := VNum (at_exp a)]> (at_payload a));
            Redis.expires_at := now w + (at_exp a - at_iat a) |}.
Proof.
  intros w'. subst w'.
  unfold serve, events_since, Server.sign_in. rewrite Hemail, Hpass.
  plumbing. projections. rewrite Huser. projections.
  rewrite Hvalid. projections.
  rewrite (issue_tokens_ok req u _ a r); projections; try assumption.
  split; [reflexivity |]. split.
  { rewrite <- !app_assoc. apply drop_app_length. }
  split; [reflexivity |]. cbn [Redis.entries]. apply lookup_insert_eq.
Qed.


(** X4. When the cache write fails after the ledger document was written,
    the sign-in is answered 500 and no cookie is set; the document stays in
    the ledger. *)
Theorem sign_in_cache_fault (req : Request) (w : World) (e p : string)
    (u : UserRecord) (a : AccessToken) (r : RefreshToken)
    (Hemail : present (req_email req) = Some e)
    (Hpass : present (req_password req) = Some p)
    (Huser : fetchUserByEmail e = {| fetched_user := Some u; fetch_error := None |})
    (Hvalid : verifyUserPassword p (password u) = true)
    (Hgen : generateUserTokens u (60 * 60) (60 * 60 * 24 * 7) (now w) = (a, r))
    (Hdb : db_fault (TokenStore w) = false)
    (Hcache : Redis.fault_at 0 (tokenCache w) = true) :
  fst (serve (Server.sign_in req) w)
  = Sent {| status := 500; body := ErrorCode "PROBLEM STORING CREDENTIALS";
            cookies := [] |} /\
  events_since w (snd (serve (Server.sign_in req) w))
  = [FetchUserByEmail e; VerifyPassword; GenerateTokens (_id u);
     LedgerCreate (at_token a) (rt_token r);
     CacheSet (at_token a) (Some (at_exp a - at_iat a))] /\
  records (TokenStore (snd (serve (Server.sign_in req) w)))
  = (records (TokenStore w)
     ++ [{| user_id := _id u; access_token := at_token a;
            refresh_token := rt_token r;
            access_token_exp_date := at_expDate a;
            refresh_token_exp_date := rt_expDate r;
            requester_data := req_requester req |}])%list.
Proof.
  unfold serve, events_since, Server.sign_in. rewrite Hemail, Hpass.
  plumbing. projections. rewrite Huser. projections.
  rewrite Hvalid. projections.
  rewrite (issue_tokens_cache_fault req u _ a r); projections; try assumption.
  split; [reflexivity |]. split; [| reflexivity].
  rewrite <- !app_assoc. apply drop_app_length.
Qed.

(** X5. Whenever a sign-in answers with claims, the request carried an email
    and a password, the lookup gave a user without an error, the password
    matched the stored hash, and the ledger and the cache accepted the new
    pair. *)
Theorem sign_in_claims_need_valid_password (req : Request) (w : World)
    (r : Response) (o : jsobj)
    (Hsent : fst (serve (Server.sign_in req) w) = Sent r)
    (Hclaims : body r = Json o) :
  exists e p u,
    present (req_email req) = Some e /\
    present (req_password req) = Some p /\
    fetchUserByEmail e = {| fetched_user := Some u; fetch_error := None |} /\
    verifyUserPassword p (password u) = true /\
    db_fault (TokenStore w) = false /\
    Redis.fault_at 0 (tokenCache w) = false.
Proof.
  apply serve_sent_inv in Hsent. revert Hsent. unfold Server.sign_in.
  destruct (present (req_email req)) as [e|];
    [| intros [= <-]; discriminate].
  destruct (present (req_password req)) as [p|];
    [| intros [= <-]; discriminate].
  plumbing. projections.
  destruct (fetchUserByEmail e) as [[u|] [err|]] eqn:Hf; projections;
    try (intros [= <-]; discriminate).
  destruct (verifyUserPassword p (password u)) eqn:Hv; projections;
    [| intros [= <-]; discriminate].
  intros Hissue.
  destruct (issue_tokens_json _ _ _ _ _ Hissue Hclaims) as (Hdb & Hc & _).
  exists e, p, u. repeat split; assumption.
Qed.

End SignIn.

(** ** More of authorize *)

Lemma rest_of_cached (p : jsobj) (x y : jsval) :
  rest_without_exp_iat (<["iat" := x]> (<["exp" := y]> p)) = rest_without_exp_iat p.
Proof.
  unfold rest_without_exp_iat.
  rewrite delete_insert_ne by discriminate.
  by rewrite delete_insert_eq, delete_insert_eq.
Qed.

Lemma getKey_live (n : Z) (k : string) (c : Redis.RedisCacheManager)
    (v : jsobj) (until : Z) :
  Redis.fault_at 0 c = false ->
  Redis.entries c !! k = Some {| Redis.value := v; Redis.expires_at := until |} ->
  n < until ->
  fst (Redis.getKey n k c)
  = {| Redis.get_cacheError := None; Redis.get_cachedVal := Some v |}.
Proof.
  intros Hf He Hn. unfold Redis.getKey, Redis.live. rewrite Hf, He.
  apply Z.ltb_lt in Hn. cbn [fst Redis.expires_at Redis.value]. by rewrite Hn.
Qed.

Lemma getKey_expired (n : Z) (k : string) (c : Redis.RedisCacheManager)
    (v : jsobj) (until : Z) :
  Redis.fault_at 0 c = false ->
  Redis.entries c !! k = Some {| Redis.value := v; Redis.expires_at := until |} ->
  until <= n ->
  fst (Redis.getKey n k c)
  = {| Redis.get_cacheError := None; Redis.get_cachedVal := None |}.
Proof.
  intros Hf He Hn. unfold Redis.getKey, Redis.live. rewrite Hf, He.
  apply Z.ltb_ge in Hn. cbn [fst Redis.expires_at Redis.value]. by rewrite Hn.
Qed.

Lemma fault_at_tail (i : nat) (entries : gmap string Redis.Entry) (l : list bool) :
  Redis.fault_at i {| Redis.entries := entries; Redis.faults := tail l |}
  = Redis.fault_at (S i) {| Redis.entries := entries; Redis.faults := l |}.
Proof. unfold Redis.fault_at. cbn [Redis.faults]. destruct l; [by destruct i | done]. Qed.

Section Authorize.

Context {C : Collaborators}.

(** The answer and the calls of a cache hit for a token that does not begin
    with "SYS". *)
Lemma authorize_hit_run (req : Request) (w : World) (t : string) (cachedVal : jsobj) :
  present (req_token req) = Some t ->
  clean_miss (blacklist_lookup w t) ->
  Redis.get_cachedVal (cache_lookup w t) = Some cachedVal ->
  slice_is_SYS t = false ->
  fst (serve (Server.authorize req) w)
  = Sent match link_error (validateRefreshTokenCookie req t (TokenStore w)) with
         | Some e =>
             {| status := le_status e; body := ErrorCode (le_code e);
                cookies := link_cookies (validateRefreshTokenCookie req t (TokenStore w)) |}
         | None =>
             {| status := 200; body := Json (rest_without_exp_iat cachedVal);
                cookies := link_cookies (validateRefreshTokenCookie req t (TokenStore w)) |}
         end /\
  events_since w (snd (serve (Server.authorize req) w))
  = [BlacklistGet t; CacheGet t; LinkCheck t].
Proof.
  intros Ht Hb Hhit Hkind.
  destruct (authorize_to_cache_lookup req w t Ht Hb) as (k & Hrun & ->).
  unfold serve, events_since. rewrite Hrun, Hhit, Hkind. plumbing. projections.
  destruct (link_error _); projections;
    (split; [reflexivity | rewrite <- !app_assoc; apply drop_app_length]).
Qed.

(** X6. After a successful sign-in, an authorize with the issued access
    token (one that does not begin with "SYS"), at any time before the cache
    entry expires and with the token not blacklisted, is served from the
    cache: the signature is not verified, the linkage check is made, and on
    its success the claims of the sign-in come back without [iat] and
    [exp]. *)
Theorem sign_in_then_authorize (req req' : Request) (w : World) (e p : string)
    (u : UserRecord) (a : AccessToken) (r : RefreshToken) (n : Z)
    (Hemail : present (req_email req) = Some e)
    (Hpass : present (req_password req) = Some p)
    (Huser : fetchUserByEmail e = {| fetched_user := Some u; fetch_error := None |})
    (Hvalid : verifyUserPassword p (password u) = true)
    (Hgen : generateUserTokens u (60 * 60) (60 * 60 * 24 * 7) (now w) = (a, r))
    (Hdb : db_fault (TokenStore w) = false)
    (Hcache : Redis.fault_at 0 (tokenCache w) = false)
    (Hlife : 0 < at_exp a - at_iat a)
    (Htoken : present (req_token req') = Some (at_token a))
    (Hkind : slice_is_SYS (at_token a) = false)
    (Hlive : n < now w + (at_exp a - at_iat a))
    (Hblack : clean_miss (blacklist_lookup (at_time n w) (at_token a)))
    (Hread : Redis.fault_at 1 (tokenCache w) = false) :
  let w1 := at_time n (snd (serve (Server.sign_in req) w)) in
  let link := validateRefreshTokenCookie req' (at_token a) (TokenStore w1) in
  events_since w1 (snd (serve (Server.authorize req') w1))
  = [BlacklistGet (at_token a); CacheGet (at_token a); LinkCheck (at_token a)] /\
  fst (serve (Server.authorize req') w1)
  = Sent match link_error link with
         | Some err => {| status := le_status err; body := ErrorCode (le_code err);
                          cookies := link_cookies link |}
         | None => {| status := 200;
                      body := Json (rest_without_exp_iat (at_payload a));
                      cookies := link_cookies link |}
         end.
Proof.
  intros w1 link.
  assert (Hw1 : tokenBlacklistCache w1 = tokenBlacklistCache w /\
                tokenCache w1 =
                {| Redis.entries :=
                     <[at_token a :=
                         {| Redis.value :=
                              <["iat" := VNum (at_iat a)]>
                                (<["exp" := VNum (at_exp a)]> (at_payload a));
                            Redis.expires_at := now w + (at_exp a - at_iat a) |}]>
                       (Redis.entries (tokenCache w));
                   Redis.faults := tail (Redis.faults (tokenCache w)) |} /\
                now w1 = n).
  { subst w1. unfold serve, Server.sign_in. rewrite Hemail, Hpass.
    plumbing. projections. rewrite Huser. projections.
    rewrite Hvalid. projections.
    rewrite (issue_tokens_ok req u _ a r); projections; try assumption.
    repeat split. }
  destruct Hw1 as (Hbl & Hc & Hnow).
  assert (Hhit : Redis.get_cachedVal (cache_lookup w1 (at_token a))
                 = Some (<["iat" := VNum (at_iat a)]>
                           (<["exp" := VNum (at_exp a)]> (at_payload a)))).
  { unfold cache_lookup. rewrite Hc, Hnow.
    erewrite getKey_live; [reflexivity | | apply lookup_insert_eq | exact Hlive].
    rewrite fault_at_tail. destruct (tokenCache w). exact Hread. }
  assert (Hmiss : clean_miss (blacklist_lookup w1 (at_token a))).
  { unfold blacklist_lookup. rewrite Hbl, Hnow. exact Hblack. }
  destruct (authorize_hit_run req' w1 _ _ Htoken Hmiss Hhit Hkind) as [Hans Hev].
  split; [exact Hev |]. rewrite Hans. fold link. by rewrite rest_of_cached.
Qed.

(** X7. [/authorize] and [/sign-out] without a bearer token (an empty one
    counts as none) are answered 400 and nothing is called. *)
Theorem missing_bearer_token (req : Request) (w : World)
    (Hmissing : present (req_token req) = None) :
  serve (Server.authorize req) w =
  (Sent {| status := 400; body := ErrorCode "MISSING AUTHORIZATION BEARER TOKEN";
           cookies := [] |}, w) /\
  serve (Server.sign_out req) w =
  (Sent {| status := 400; body := ErrorCode "MISSING AUTHORIZATION BEARER TOKEN";
           cookies := [] |}, w).
Proof.
  unfold serve, Server.authorize, Server.sign_out. rewrite Hmissing.
  destruct w; split; reflexivity.
Qed.

(** X8. Whenever [/authorize] answers with claims, the blacklist lookup of
    the token answered without an error that the token is not there, and the
    claims carry neither [iat] nor [exp]. *)
Theorem authorize_claims_checked (req : Request) (w : World) (r : Response)
    (o : jsobj)
    (Hsent : fst (serve (Server.authorize req) w) = Sent r)
    (Hclaims : body r = Json o) :
  (exists t, present (req_token req) = Some t /\ clean_miss (blacklist_lookup w t)) /\
  o !! "iat" = None /\ o !! "exp" = None.
Proof.
  destruct (present (req_token req)) as [t|] eqn:Ht.
  2:{ revert Hsent. unfold serve, Server.authorize. rewrite Ht.
      intros [= <-]. discriminate. }
  destruct (Redis.get_cacheError (blacklist_lookup w t)) as [err|] eqn:Hbe.
  { destruct (authorize_blacklist_fault req w t err Ht Hbe) as [E _].
    rewrite E in Hsent. injection Hsent as <-. discriminate. }
  destruct (Redis.get_cachedVal (blacklist_lookup w t)) as [v|] eqn:Hbv.
  { destruct (authorize_blacklisted req w t Ht) as [E _].
    { unfold blacklisted. rewrite Hbv. by eexists. }
    rewrite E in Hsent. injection Hsent as <-. discriminate. }
  assert (Hb : clean_miss (blacklist_lookup w t)) by (by split).
  split; [by exists t |].
  apply serve_sent_inv in Hsent. revert Hsent.
  destruct (authorize_to_cache_lookup req w t Ht Hb) as (k & -> & ->).
  destruct (Redis.get_cachedVal (cache_lookup w t)) as [cachedVal|].
  - destruct (slice_is_SYS t); plumbing; projections.
    + intros [= <-]. injection Hclaims as <-.
      split; [apply rest_has_no_iat | apply rest_has_no_exp].
    + destruct (link_error _); projections; intros [= <-];
        [discriminate |]. injection Hclaims as <-.
      split; [apply rest_has_no_iat | apply rest_has_no_exp].
  - destruct (defined (Redis.get_cacheError (cache_lookup w t)));
      [intros [= <-]; discriminate |].
    plumbing. projections.
    destruct (jwt_verify t (now w)) as [name | d]; unfold Server.authorize_verified.
    + destruct (String.eqb name "TokenExpiredError"); plumbing; projections;
        intros [= <-]; discriminate.
    + plumbing. projections. destruct (link_error _); projections;
        [intros [= <-]; discriminate |].
      rewrite tokenCache_setKey_run. projections.
      destruct (Server.set_failed _); projections; intros [= <-];
        [discriminate |]. injection Hclaims as <-.
      split; [apply rest_has_no_iat | apply rest_has_no_exp].
Qed.

(** X9. On the fallback path, when the linkage check answers with an error,
    that error is the answer (its status and code) and the verified token is
    not cached. *)
Theorem authorize_fallback_link_error
    (req : Request) (w : World) (t : string) (decoded : jsobj) (err : LinkError)
    (Htoken : present (req_token req) = Some t)
    (Hblack : clean_miss (blacklist_lookup w t))
    (Hcache : clean_miss (cache_lookup w t))
    (Hverify : jwt_verify t (now w) = Decoded decoded)
    (Hlink : link_error (validateRefreshTokenCookie req t (TokenStore w)) = Some err) :
  fst (serve (Server.authorize req) w)
  = Sent {| status := le_status err; body := ErrorCode (le_code err);
            cookies := link_cookies (validateRefreshTokenCookie req t (TokenStore w)) |} /\
  events_since w (snd (serve (Server.authorize req) w))
  = [BlacklistGet t; CacheGet t; JwtVerify t; LinkCheck t] /\
  Redis.entries (tokenCache (snd (serve (Server.authorize req) w)))
  = Redis.entries (tokenCache w).
Proof.
  destruct Hcache as [Hce Hcv].
  destruct (authorize_to_cache_lookup req w t Htoken Hblack) as (k & Hrun & ->).
  unfold serve, events_since. rewrite Hrun, Hcv, Hce. plumbing. projections.
  rewrite Hverify. unfold Server.authorize_verified. plumbing. projections.
  rewrite Hlink. projections.
  repeat split. rewrite <- !app_assoc. apply drop_app_length.
Qed.

(** X10. On the fallback path, when the verification and the linkage check
    pass and the cache takes the entry, the answer is 200 with the decoded
    claims without [iat] and [exp]; the decoded token itself, with [iat] and
    [exp], is what the cache then holds until [exp - iat] seconds after the
    request. *)
Theorem authorize_fallback_success
    (req : Request) (w : World) (t : string) (decoded : jsobj) (exp iat : Z)
    (Htoken : present (req_token req) = Some t)
    (Hblack : clean_miss (blacklist_lookup w t))
    (Hcache : clean_miss (cache_lookup w t))
    (Hverify : jwt_verify t (now w) = Decoded decoded)
    (Hlink : link_error (validateRefreshTokenCookie req t (TokenStore w)) = None)
    (Hexp : js_num decoded "exp" = Some exp)
    (Hiat : js_num decoded "iat" = Some iat)
    (Hlife : 0 < exp - iat)
    (Hwrite : Redis.fault_at 1 (tokenCache w) = false) :
  fst (serve (Server.authorize req) w)
  = Sent {| status := 200; body := Json (rest_without_exp_iat decoded);
            cookies := link_cookies (validateRefreshTokenCookie req t (TokenStore w)) |} /\
  Redis.entries (tokenCache (snd (serve (Server.authorize req) w)))
  = <[t := {| Redis.value := decoded; Redis.expires_at := now w + (exp - iat) |}]>
      (Redis.entries (tokenCache w)).
Proof.
  destruct Hcache as [Hce Hcv].
  destruct (authorize_to_cache_lookup req w t Htoken Hblack) as (k & Hrun & ->).
  unfold serve. rewrite Hrun, Hcv, Hce. plumbing. projections.
  rewrite Hverify. unfold Server.authorize_verified. plumbing. projections.
  rewrite Hlink. projections.
  rewrite tokenCache_setKey_run. projections.
  rewrite Hexp, Hiat. cbn [js_sub].
  rewrite setKey_works; [| by rewrite fault_at_after_call | exact Hlife].
  cbn [fst snd Server.set_failed Redis.set_status Redis.set_cacheError
       defined String.eqb Ascii.eqb Bool.eqb negb orb].
  projections. by rewrite app_nil_l.
Qed.

End Authorize.

(** ** More of refresh *)

Lemma find_app_found {A} (f : A -> bool) (l k : list A) (x : A) :
  find f l = Some x -> find f (l ++ k)%list = Some x.
Proof.
  induction l as [|y l IH]; simpl; [discriminate |].
  destruct (f y); [done | exact IH].
Qed.

Lemma pairing_exact (a r : string) (d : TokenRecord) :
  pairing a r d = true -> access_token d = a /\ refresh_token d = r.
Proof.
  unfold pairing. intros H. apply andb_prop in H as [Ha Hr].
  split; by apply String.eqb_eq.
Qed.

Section Refresh.

Context {C : Collaborators}.

(** What [/refresh] does up to the answer of the ledger, for a token that
    is not blacklisted and a request with a refresh cookie. *)
Lemma refresh_to_ledger (req : Request) (w : World) (t rt : string) :
  present (req_token req) = Some t ->
  clean_miss (blacklist_lookup w t) ->
  present (req_refresh_cookie req) = Some rt ->
  exists k : Found -> Handler Empty_set,
    Server.refresh req {| world := w; res_cookies := [] |} =
    k (if db_fault (TokenStore w) then FindThrows
       else match find (pairing t rt) (records (TokenStore w)) with
            | Some d => FindDoc d
            | None => FindNull
            end)
      {| world :=
           {| now := now w;
              tokenCache := tokenCache w;
              tokenBlacklistCache := Redis.after_call (tokenBlacklistCache w);
              TokenStore := {| records := records (TokenStore w);
                               db_faults := tail (db_faults (TokenStore w)) |};
              trace := (trace w ++ [BlacklistGet t; LedgerFind t rt])%list |};
         res_cookies := [] |} /\
    k = fun found =>
      match found with
      | FindThrows => send 500 (ErrorCode "PROBLEM RETRIEVING TOKEN RECORD")
      | FindNull =>
          let* _ := res_clearCookie in
          send 401 (ErrorCode "NO RECORD OF CURRENT TOKEN PAIRING EXISTS")
      | FindDoc tokenStore =>
          let* fetched := Server.call_fetchUserById (user_id tokenStore) in
          match fetch_error fetched with
          | Some userFetchError =>
              send (fe_status userFetchError)
                   (ErrorCode (fe_error_code userFetchError))
          | None =>
              match fetched_user fetched with
              | Some user => Server.issue_tokens req user
              | None => throw "TypeError"
              end
          end
      end.
Proof.
  intros Ht [Hbe Hbv] Hc. eexists. split; [| reflexivity].
  unfold Server.refresh. rewrite Ht. unfold bind at 1.
  rewrite tokenBlacklistCache_getKey_run. projections.
  rewrite Hbe, Hbv, Hc. projections.
  unfold bind at 1, TokenStore_findOne, bind, log, ask, on_world, ret.
  projections. rewrite <- app_assoc.
  destruct (db_fault (TokenStore w)); [reflexivity |].
  destruct (find _ _); reflexivity.
Qed.

(** X11. A refresh whose access token and refresh cookie pair with no
    ledger document is answered 401 with the cookie cleared; no user is
    fetched, no token is issued, and the ledger and the cache stay as they
    were. *)
Theorem refresh_unknown_pairing (req : Request) (w : World) (t rt : string)
    (Htoken : present (req_token req) = Some t)
    (Hblack : clean_miss (blacklist_lookup w t))
    (Hcookie : present (req_refresh_cookie req) = Some rt)
    (Hdb : db_fault (TokenStore w) = false)
    (Hnone : find (pairing t rt) (records (TokenStore w)) = None) :
  fst (serve (Server.refresh req) w)
  = Sent {| status := 401;
            body := ErrorCode "NO RECORD OF CURRENT TOKEN PAIRING EXISTS";
            cookies := [ClearCookie] |} /\
  events_since w (snd (serve (Server.refresh req) w))
  = [BlacklistGet t; LedgerFind t rt] /\
  records (TokenStore (snd (serve (Server.refresh req) w))) = records (TokenStore w) /\
  tokenCache (snd (serve (Server.refresh req) w)) = tokenCache w.
Proof.
  destruct (refresh_to_ledger req w t rt Htoken Hblack Hcookie) as (k & Hrun & ->).
  unfold serve, events_since. rewrite Hrun, Hdb, Hnone. plumbing. projections.
  repeat split. apply drop_app_length.
Qed.

(** X12. When the ledger lookup throws, the refresh is answered 500 and the
    refresh cookie is left as it is. *)
Theorem refresh_ledger_fault (req : Request) (w : World) (t rt : string)
    (Htoken : present (req_token req) = Some t)
    (Hblack : clean_miss (blacklist_lookup w t))
    (Hcookie : present (req_refresh_cookie req) = Some rt)
    (Hdb : db_fault (TokenStore w) = true) :
  fst (serve (Server.refresh req) w)
  = Sent {| status := 500; body := ErrorCode "PROBLEM RETRIEVING TOKEN RECORD";
            cookies := [] |} /\
  events_since w (snd (serve (Server.refresh req) w))
  = [BlacklistGet t; LedgerFind t rt].
Proof.
  destruct (refresh_to_ledger req w t rt Htoken Hblack Hcookie) as (k & Hrun & ->).
  unfold serve, events_since. rewrite Hrun, Hdb. plumbing. projections.
  repeat split. apply drop_app_length.
Qed.

(** X13. A refresh with a paired access token and refresh cookie, whose
    user is found, with the ledger and the cache write working, answers 200
    with the new access token and sets the new refresh cookie. The new pair
    is appended to the ledger and its claims are cached under the new access
    token; the old document is still what the ledger finds for the old pair,
    and nothing is written to the blacklist. *)
Theorem refresh_success (req : Request) (w : World) (t rt : string)
    (d : TokenRecord) (u : UserRecord) (a : AccessToken) (r : RefreshToken)
    (Htoken : present (req_token req) = Some t)
    (Hblack : clean_miss (blacklist_lookup w t))
    (Hcookie : present (req_refresh_cookie req) = Some rt)
    (Hfind : db_fault (TokenStore w) = false)
    (Hpair : find (pairing t rt) (records (TokenStore w)) = Some d)
    (Huser : fetchUserById (user_id d) = {| fetched_user := Some u; fetch_error := None |})
    (Hgen : generateUserTokens u (60 * 60) (60 * 60 * 24 * 7) (now w) = (a, r))
    (Hcreate : nth 1 (db_faults (TokenStore w)) false = false)
    (Hcache : Redis.fault_at 0 (tokenCache w) = false)
    (Hlife : 0 < at_exp a - at_iat a) :
  let w' := snd (serve (Server.refresh req) w) in
  fst (serve (Server.refresh req) w)
  = Sent {| status := 200;
            body := Json (at_payload a ∪ {[ "access_token" := VStr (at_token a) ]});
            cookies := [SetCookie (rt_token r) (rt_expDate r)] |} /\
  events_since w w'
  = [BlacklistGet t; LedgerFind t rt; FetchUserById (user_id d);
     GenerateTokens (_id u); LedgerCreate (at_token a) (rt_token r);
     CacheSet (at_token a) (Some (at_exp a - at_iat a))] /\
  records (TokenStore w')
  = (records (TokenStore w)
     ++ [{| user_id := _id u; access_token := at_token a;
            refresh_token := rt_token r;
            access_token_exp_date := at_expDate a;
            refresh_token_exp_date := rt_expDate r;
            requester_data := req_requester req |}])%list /\
  find (pairing t rt) (records (TokenStore w')) = Some d /\
  Redis.entries (tokenBlacklistCache w') = Redis.entries (tokenBlacklistCache w) /\
  Redis.entries (tokenCache w') !! at_token a
  = Some {| Redis.value :=
              <["iat" := VNum (at_iat a)]>
                (<["exp" := VNum (at_exp a)]> (at_payload a));
            Redis.expires_at := now w + (at_exp a - at_iat a) |}.
Proof.
  intros w'. subst w'.
  destruct (refresh_to_ledger req w t rt Htoken Hblack Hcookie) as (k & Hrun & ->).
  unfold serve, events_since. rewrite Hrun, Hfind, Hpair.
  unfold bind at 1, Server.call_fetchUserById, bind, log, on_world, ret.
  projections. rewrite Huser. projections.
  rewrite (issue_tokens_ok req u _ a r); projections; try assumption.
  2:{ unfold db_fault. cbn [db_faults].
      destruct (db_faults (TokenStore w)); [reflexivity | exact Hcreate]. }
  split; [reflexivity |]. split.
  { rewrite <- !app_assoc. apply drop_app_length. }
  split; [reflexivity |]. split; [by apply find_app_found |].
  split; [reflexivity |].
  cbn [Redis.entries]. apply lookup_insert_eq.
Qed.

(** X14. Whenever [/refresh] answers with claims, the access token was
    present and not blacklisted, the refresh cookie was present, and the
    ledger holds a document whose access token and refresh token are exactly
    the two presented, for a user that the lookup by id found. *)
Theorem refresh_claims_need_pairing (req : Request) (w : World) (r : Response)
    (o : jsobj)
    (Hsent : fst (serve (Server.refresh req) w) = Sent r)
    (Hclaims : body r = Json o) :
  exists t rt d u,
    present (req_token req) = Some t /\
    clean_miss (blacklist_lookup w t) /\
    present (req_refresh_cookie req) = Some rt /\
    d ∈ records (TokenStore w) /\
    access_token d = t /\ refresh_token d = rt /\
    fetchUserById (user_id d) = {| fetched_user := Some u; fetch_error := None |}.
Proof.
  destruct (present (req_token req)) as [t|] eqn:Ht.
  2:{ revert Hsent. unfold serve, Server.refresh. rewrite Ht.
      intros [= <-]. discriminate. }
  destruct (Redis.get_cacheError (blacklist_lookup w t)) as [err|] eqn:Hbe.
  { destruct (refresh_blacklist_fault req w t err Ht Hbe) as [E _].
    rewrite E in Hsent. injection Hsent as <-. discriminate. }
  destruct (Redis.get_cachedVal (blacklist_lookup w t)) as [v|] eqn:Hbv.
  { destruct (refresh_blacklisted req w t Ht) as [E _].
    { unfold blacklisted. rewrite Hbv. by eexists. }
    rewrite E in Hsent. injection Hsent as <-. discriminate. }
  assert (Hb : clean_miss (blacklist_lookup w t)) by (by split).
  destruct (present (req_refresh_cookie req)) as [rt|] eqn:Hc.
  2:{ revert Hsent. unfold serve, Server.refresh. rewrite Ht. unfold bind at 1.
      rewrite tokenBlacklistCache_getKey_run. projections.
      rewrite Hbe, Hbv, Hc. intros [= <-]. discriminate. }
  apply serve_sent_inv in Hsent. revert Hsent.
  destruct (refresh_to_ledger req w t rt Ht Hb Hc) as (k & -> & ->).
  destruct (db_fault (TokenStore w)); [intros [= <-]; discriminate |].
  destruct (find (pairing t rt) (records (TokenStore w))) as [d|] eqn:Hfind;
    [| plumbing; projections; intros [= <-]; discriminate].
  unfold bind at 1, Server.call_fetchUserById, bind, log, on_world, ret.
  projections.
  destruct (fetchUserById (user_id d)) as [[u|] [e|]] eqn:Hu; projections;
    try (intros [= <-]; discriminate); try discriminate.
  intros _. apply find_some in Hfind as [Hin Hp].
  apply pairing_exact in Hp as [Ha Hr].
  exists t, rt, d, u. repeat split; try assumption.
  by apply list_elem_of_In.
Qed.

End Refresh.

(** ** More of sign-out *)

Lemma setKey_entries_other (n : Z) (k k' : string) (v : jsobj) (ttl : option Z)
    (c : Redis.RedisCacheManager) :
  k <> k' ->
  Redis.entries (snd (Redis.setKey n k v ttl c)) !! k' = Redis.entries c !! k'.
Proof.
  intros Hne. unfold Redis.setKey.
  destruct (Redis.fault_at 0 c); [reflexivity |].
  destruct ttl as [T|]; [| reflexivity].
  destruct (0 <? T); [| reflexivity].
  cbn [snd Redis.entries]. by apply lookup_insert_ne.
Qed.

Section MoreSignOut.

Context {C : Collaborators}.

(** X15. A sign-out of a token that the blacklist store has is answered 400
    TOKEN ALREADY BLACKLISTED after the lookup alone: the signature is not
    verified and the entry and its expiry are left as they are. *)
Theorem sign_out_already_blacklisted (req : Request) (w : World) (t : string)
    (Htoken : present (req_token req) = Some t)
    (Hblack : blacklisted w t) :
  fst (serve (Server.sign_out req) w)
  = Sent {| status := 400; body := ErrorCode "TOKEN ALREADY BLACKLISTED";
            cookies := [] |} /\
  events_since w (snd (serve (Server.sign_out req) w)) = [BlacklistGet t] /\
  Redis.entries (tokenBlacklistCache (snd (serve (Server.sign_out req) w)))
  = Redis.entries (tokenBlacklistCache w).
Proof.
  destruct Hblack as [v Hv].
  unfold serve, events_since, Server.sign_out. rewrite Htoken. unfold bind.
  rewrite tokenBlacklistCache_getKey_run. projections. rewrite Hv. projections.
  repeat split. apply drop_app_length.
Qed.

(** X16. A sign-out of a token whose verification fails, for whatever
    reason (expired or not valid), is answered 400 TOKEN ALREADY INVALID and
    nothing is written to the blacklist. *)
Theorem sign_out_invalid_signature (req : Request) (w : World) (t name : string)
    (Htoken : present (req_token req) = Some t)
    (Hblack : Redis.get_cachedVal (blacklist_lookup w t) = None)
    (Hverify : jwt_verify t (now w) = VerifyError name) :
  fst (serve (Server.sign_out req) w)
  = Sent {| status := 400; body := ErrorCode "TOKEN ALREADY INVALID";
            cookies := [] |} /\
  events_since w (snd (serve (Server.sign_out req) w))
  = [BlacklistGet t; JwtVerify t] /\
  Redis.entries (tokenBlacklistCache (snd (serve (Server.sign_out req) w)))
  = Redis.entries (tokenBlacklistCache w).
Proof.
  unfold serve, events_since, Server.sign_out. rewrite Htoken. unfold bind.
  rewrite tokenBlacklistCache_getKey_run. projections. rewrite Hblack.
  plumbing. projections. rewrite Hverify.
  unfold Server.sign_out_verified, send. projections.
  repeat split. rewrite <- !app_assoc. apply drop_app_length.
Qed.

(** X17. Whatever the request and the state, [/sign-out] leaves the session
    cache, the ledger and the clock untouched, sets and clears no cookie,
    and changes the blacklist entry of no token other than the one
    presented. *)
Theorem sign_out_frame (req : Request) (w : World) :
  let w' := snd (serve (Server.sign_out req) w) in
  tokenCache w' = tokenCache w /\
  TokenStore w' = TokenStore w /\
  now w' = now w /\
  (forall r, fst (serve (Server.sign_out req) w) = Sent r -> cookies r = []) /\
  (forall k, present (req_token req) <> Some k ->
     Redis.entries (tokenBlacklistCache w') !! k
     = Redis.entries (tokenBlacklistCache w) !! k).
Proof.
  intros w'. subst w'. unfold serve, Server.sign_out.
  destruct (present (req_token req)) as [t|].
  2:{ projections. repeat split. by intros r [= <-]. }
  unfold bind. rewrite tokenBlacklistCache_getKey_run. projections.
  destruct (Redis.get_cachedVal (blacklist_lookup w t)); projections.
  { unfold send. projections. repeat split. by intros r [= <-]. }
  plumbing. projections.
  destruct (jwt_verify t (now w)) as [name | d];
    unfold Server.sign_out_verified.
  { unfold send. projections. repeat split. by intros r [= <-]. }
  unfold bind, ask. rewrite tokenBlacklistCache_setKey_run. projections.
  assert (Hother : forall k, Some t <> Some k ->
    Redis.entries
      (snd (Redis.setKey (now w) t {[ "created_at" := VNum (now w) ]}
              (js_sub (js_num d "exp") (js_num d "iat"))
              (Redis.after_call (tokenBlacklistCache w)))) !! k
    = Redis.entries (tokenBlacklistCache w) !! k).
  { intros k Hk. rewrite setKey_entries_other by congruence. reflexivity. }
  destruct (Server.set_failed _); unfold send; projections;
    (repeat split; [by intros r [= <-] | exact Hother]).
Qed.

(** X18. After a successful sign-out of a token, for as long as the
    blacklist entry lives (less than [exp - iat] seconds later) and the
    blacklist store answers, [/authorize] and [/refresh] with that token are
    answered 401 TOKEN INVALID and a second [/sign-out] is answered 400
    TOKEN ALREADY BLACKLISTED. *)
Theorem sign_out_then_rejected (req req' : Request) (w : World) (t : string)
    (decoded : jsobj) (exp iat n : Z)
    (Htoken : present (req_token req) = Some t)
    (Hfresh : Redis.get_cachedVal (blacklist_lookup w t) = None)
    (Hverify : jwt_verify t (now w) = Decoded decoded)
    (Hexp : js_num decoded "exp" = Some exp)
    (Hiat : js_num decoded "iat" = Some iat)
    (Hlife : 0 < exp - iat)
    (Hwrite : Redis.fault_at 1 (tokenBlacklistCache w) = false)
    (Htoken' : present (req_token req') = Some t)
    (Hsoon : n < now w + (exp - iat))
    (Hread : Redis.fault_at 2 (tokenBlacklistCache w) = false) :
  let w1 := at_time n (snd (serve (Server.sign_out req) w)) in
  fst (serve (Server.sign_out req) w)
  = Sent {| status := 200; body := Text "SUCCESS"; cookies := [] |} /\
  fst (serve (Server.authorize req') w1) = Sent token_invalid /\
  fst (serve (Server.refresh req') w1) = Sent token_invalid /\
  fst (serve (Server.sign_out req') w1)
  = Sent {| status := 400; body := ErrorCode "TOKEN ALREADY BLACKLISTED";
            cookies := [] |}.
Proof.
  intros w1.
  assert (Hrun : serve (Server.sign_out req) w =
    (Sent {| status := 200; body := Text "SUCCESS"; cookies := [] |},
     {| now := now w; tokenCache := tokenCache w;
        tokenBlacklistCache :=
          {| Redis.entries :=
               <[t := {| Redis.value := {[ "created_at" := VNum (now w) ]};
                         Redis.expires_at := now w + (exp - iat) |}]>
                 (Redis.entries (tokenBlacklistCache w));
             Redis.faults := tail (tail (Redis.faults (tokenBlacklistCache w))) |};
        TokenStore := TokenStore w;
        trace := (trace w ++ [BlacklistGet t; JwtVerify t;
                              BlacklistSet t (Some (exp - iat))])%list |})).
  { unfold serve, Server.sign_out. rewrite Htoken. unfold bind at 1.
    rewrite tokenBlacklistCache_getKey_run. projections. rewrite Hfresh.
    plumbing. projections. rewrite Hverify.
    unfold Server.sign_out_verified, bind, ask.
    rewrite tokenBlacklistCache_setKey_run. projections.
    rewrite Hexp, Hiat. cbn [js_sub].
    rewrite setKey_works; [| by rewrite fault_at_after_call | exact Hlife].
    cbn [fst snd Server.set_failed Redis.set_status Redis.set_cacheError
         defined String.eqb Ascii.eqb Bool.eqb negb orb].
    unfold send. projections. rewrite <- !app_assoc. reflexivity. }
  assert (Hb : blacklisted w1 t).
  { subst w1. rewrite Hrun. unfold blacklisted, blacklist_lookup.
    cbn [snd at_time now tokenBlacklistCache].
    erewrite getKey_live; [by eexists | | apply lookup_insert_eq | exact Hsoon].
    rewrite !fault_at_tail. destruct (tokenBlacklistCache w). exact Hread. }
  split; [by rewrite Hrun |].
  split; [exact (proj1 (authorize_blacklisted req' w1 t Htoken' Hb)) |].
  split; [exact (proj1 (refresh_blacklisted req' w1 t Htoken' Hb)) |].
  destruct Hb as [v Hv].
  unfold serve, Server.sign_out. rewrite Htoken'. unfold bind.
  rewrite tokenBlacklistCache_getKey_run. projections. by rewrite Hv.
Qed.

End MoreSignOut.

(** ** More of the TypeScript controller, the User class and the token kind *)

(** X19. Whenever the controller answers [ok] with a payload, the token was
    present and not blacklisted, and the payload is the cached one or, on a
    cache miss with a secret key, the verified token without [iat] and
    [exp], which is also what the last call hands to [cacheToken], with
    TTL [exp - iat]. *)
Theorem executeImpl_ok_checked
    (isBlacklisted : string -> bool) (getCachedPayload : string -> option jsobj)
    (key : option string) (verify : string -> VerifyResult)
    (token : option string) (p : jsobj)
    (Hok : fst (AuthorizeController.executeImpl isBlacklisted getCachedPayload
                  key verify token) = AuthorizeController.ok p) :
  exists t,
    present token = Some t /\ isBlacklisted t = false /\
    (getCachedPayload t = Some p \/
     (getCachedPayload t = None /\ defined key = true /\
      exists d, verify t = Decoded d /\ p = rest_without_exp_iat d /\
        p !! "iat" = None /\ p !! "exp" = None /\
        last (snd (AuthorizeController.executeImpl isBlacklisted getCachedPayload
                     key verify token))
        = Some (AuthorizeController.CacheToken t p
                  (js_sub (js_num d "exp") (js_num d "iat"))))).
Proof.
  revert Hok. unfold AuthorizeController.executeImpl.
  destruct (present token) as [t|]; [| discriminate].
  destruct (isBlacklisted t) eqn:Hb; [discriminate |].
  destruct (getCachedPayload t) as [c|] eqn:Hc.
  { intros [= <-]. exists t. split; [reflexivity |]. split; [exact Hb |].
    by left. }
  destruct key as [k|]; [| discriminate].
  destruct (verify t) as [name | d] eqn:Hv.
  { simpl. destruct (String.eqb name "TokenExpiredError"); discriminate. }
  intros [= <-]. exists t. split; [reflexivity |]. split; [exact Hb |].
  right. split; [exact Hc |]. split; [reflexivity |].
  exists d. split; [exact Hv |]. split; [reflexivity |].
  split; [apply rest_has_no_iat |]. split; [apply rest_has_no_exp |].
  reflexivity.
Qed.

(** X20. [initByEmail] and [initByID] replace whatever the object held by
    what the lookup gives: with a record, the object exists and the
    accessors return the record's fields and the verdict of
    [isPasswordValid] on the stored password and the submitted one; with
    [null], the object does not exist any more, whatever it held before. *)
Theorem User_init_then_read
    (fetchUserByEmail fetchUserById : string -> option UserRecord)
    (isPasswordValid : string -> string -> bool)
    (TokenDataPair : Type) (createUserTokenData : UserRecord -> TokenDataPair)
    (this : User.User) (key submitted : string) :
  let byEmail := User.initByEmail fetchUserByEmail this key in
  let byID := User.initByID fetchUserById this key in
  (forall u, fetchUserByEmail key = Some u ->
     User.exists_ byEmail = true /\
     User.getFields byEmail = User.Return (Some u) /\
     User.confirmedEmail byEmail = User.Return (email_confirmed u) /\
     User.hasPassword isPasswordValid byEmail submitted
     = User.Return (isPasswordValid (password u) submitted) /\
     User.initUserTokens TokenDataPair createUserTokenData byEmail
     = User.Return (createUserTokenData u)) /\
  (forall u, fetchUserById key = Some u ->
     User.exists_ byID = true /\ User.getFields byID = User.Return (Some u)) /\
  (fetchUserByEmail key = None -> User.exists_ byEmail = false) /\
  (fetchUserById key = None -> User.exists_ byID = false).
Proof.
  intros byEmail byID. subst byEmail byID.
  unfold User.initByEmail, User.initByID, User.exists_, User.getFields,
    User.confirmedEmail, User.hasPassword, User.initUserTokens, User.exists_.
  cbn [User._user].
  repeat split; intros; try match goal with H : _ = _ |- _ => rewrite H end;
    reflexivity.
Qed.

(** X21. The test [access_token.slice(0, 3) === "SYS"] holds exactly for the
    tokens that are "SYS" followed by anything; a shorter token fails it. *)
Theorem slice_is_SYS_prefix (t : string) :
  slice_is_SYS t = true <-> exists rest, t = "SYS" ++ rest.
Proof.
  unfold slice_is_SYS. split.
  - destruct t as [|a [|b [|c rest]]]; simpl; try discriminate.
    + destruct (Ascii.eqb a _); discriminate.
    + destruct (Ascii.eqb a _); [| discriminate].
      destruct (Ascii.eqb b _); discriminate.
    + destruct (Ascii.eqb a _) eqn:Ha; [| discriminate].
      destruct (Ascii.eqb b _) eqn:Hb; [| discriminate].
      destruct (Ascii.eqb c _) eqn:Hc; [| discriminate].
      intros _. apply Ascii.eqb_eq in Ha, Hb, Hc. subst. by exists rest.
  - intros [rest ->]. simpl. by destruct rest.
Qed.

(** ** The further theorems at concrete inputs *)

(** Closes a hypothesis of a theorem at a concrete input by evaluation. *)
Ltac evaluated :=
  first [ reflexivity | split; reflexivity | lia
        | vm_compute; reflexivity | split; vm_compute; reflexivity
        | eexists; vm_compute; reflexivity ].

Ltac at_input H := repeat (specialize (H ltac:(evaluated))).

Section MoreWitnesses.

Import Scenario.

Lemma sign_in_missing_credentials_witness :
  serve (Server.sign_in (credentials "" "p1")) (fresh 100) =
  (Sent {| status := 400; body := ErrorCode "MISSING EMAIL OR PASSWORD";
           cookies := [] |}, fresh 100).
Proof.
  apply (sign_in_missing_credentials (credentials "" "p1") (fresh 100)).
  left. reflexivity.
Defined.

Lemma sign_in_success_witness :
  let w' := snd (serve (Server.sign_in (credentials "a@x.com" "p1")) (fresh 100)) in
  fst (serve (Server.sign_in (credentials "a@x.com" "p1")) (fresh 100))
  = Sent {| status := 200;
            body := Json (payload_of "USER"
                          ∪ {[ "access_token" := VStr "eyJ.access.u1.100" ]});
            cookies := [SetCookie "eyJ.refresh.u1.100" 604900] |} /\
  events_since (fresh 100) w'
  = [FetchUserByEmail "a@x.com"; VerifyPassword; GenerateTokens "u1";
     LedgerCreate "eyJ.access.u1.100" "eyJ.refresh.u1.100";
     CacheSet "eyJ.access.u1.100" (Some 3600)] /\
  length (records (TokenStore w')) = 1%nat /\
  is_Some (Redis.entries (tokenCache w') !! "eyJ.access.u1.100").
Proof.
  intros w'.
  pose proof (sign_in_success (credentials "a@x.com" "p1") (fresh 100)
                "a@x.com" "p1" alice
                (fst (generateUserTokens_model alice 3600 604800 100))
                (snd (generateUserTokens_model alice 3600 604800 100))) as H.
  at_input H. destruct H as (Hans & Hev & Hrec & Hentry).
  split; [etransitivity; [exact Hans | vm_compute; reflexivity] |].
  split; [etransitivity; [exact Hev | vm_compute; reflexivity] |].
  split; [subst w'; by rewrite Hrec |].
  eexists. etransitivity; [| exact Hentry]. vm_compute. reflexivity.
Defined.


Lemma sign_in_cache_fault_witness :
  let w := cache_fails (fresh 100) in
  fst (serve (Server.sign_in (credentials "a@x.com" "p1")) w)
  = Sent {| status := 500; body := ErrorCode "PROBLEM STORING CREDENTIALS";
            cookies := [] |} /\
  length (records (TokenStore
            (snd (serve (Server.sign_in (credentials "a@x.com" "p1")) w)))) = 1%nat.
Proof.
  intros w.
  pose proof (sign_in_cache_fault (credentials "a@x.com" "p1") w
                "a@x.com" "p1" alice
                (fst (generateUserTokens_model alice 3600 604800 100))
                (snd (generateUserTokens_model alice 3600 604800 100))) as H.
  at_input H. destruct H as (Hans & _ & Hrec).
  split; [exact Hans | by rewrite Hrec].
Defined.

Lemma sign_in_claims_need_valid_password_witness :
  exists e p u,
    present (req_email (credentials "a@x.com" "p1")) = Some e /\
    present (req_password (credentials "a@x.com" "p1")) = Some p /\
    fetchUserByEmail e = {| fetched_user := Some u; fetch_error := None |} /\
    verifyUserPassword p (password u) = true /\
    db_fault (TokenStore (fresh 100)) = false /\
    Redis.fault_at 0 (tokenCache (fresh 100)) = false.
Proof.
  pose proof (sign_in_claims_need_valid_password (credentials "a@x.com" "p1")
           (fresh 100)
           {| status := 200;
              body := Json (payload_of "USER"
                            ∪ {[ "access_token" := VStr "eyJ.access.u1.100" ]});
              cookies := [SetCookie "eyJ.refresh.u1.100" 604900] |}
           (payload_of "USER" ∪ {[ "access_token" := VStr "eyJ.access.u1.100" ]})) as H.
  at_input H. exact H.
Defined.

Lemma sign_in_then_authorize_witness :
  let w1 := at_time 200 (snd (serve (Server.sign_in (credentials "a@x.com" "p1"))
                                (fresh 100))) in
  events_since w1 (snd (serve (Server.authorize (bearer "eyJ.access.u1.100")) w1))
  = [BlacklistGet "eyJ.access.u1.100"; CacheGet "eyJ.access.u1.100";
     LinkCheck "eyJ.access.u1.100"] /\
  fst (serve (Server.authorize (bearer "eyJ.access.u1.100")) w1)
  = Sent {| status := 200; body := Json (payload_of "USER"); cookies := [] |}.
Proof.
  intros w1.
  pose proof (sign_in_then_authorize (credentials "a@x.com" "p1")
              (bearer "eyJ.access.u1.100") (fresh 100) "a@x.com" "p1" alice
              (fst (generateUserTokens_model alice 3600 604800 100))
              (snd (generateUserTokens_model alice 3600 604800 100)) 200) as H.
  at_input H. destruct H as [Hev Hans].
  split; [etransitivity; [exact Hev | vm_compute; reflexivity] |].
  etransitivity; [exact Hans | vm_compute; reflexivity].
Defined.

Lemma missing_bearer_token_witness :
  serve (Server.authorize (credentials "a@x.com" "p1")) (fresh 100) =
  (Sent {| status := 400; body := ErrorCode "MISSING AUTHORIZATION BEARER TOKEN";
           cookies := [] |}, fresh 100) /\
  serve (Server.sign_out (credentials "a@x.com" "p1")) (fresh 100) =
  (Sent {| status := 400; body := ErrorCode "MISSING AUTHORIZATION BEARER TOKEN";
           cookies := [] |}, fresh 100).
Proof.
  pose proof (missing_bearer_token (credentials "a@x.com" "p1") (fresh 100)) as H.
  at_input H. exact H.
Defined.

Lemma authorize_claims_checked_witness :
  (exists t, present (req_token (bearer "eyJ.user")) = Some t /\
             clean_miss (blacklist_lookup (fresh 100) t)) /\
  payload_of "USER" !! "iat" = None /\ payload_of "USER" !! "exp" = None.
Proof.
  pose proof (authorize_claims_checked (bearer "eyJ.user") (fresh 100)
           {| status := 200; body := Json (payload_of "USER"); cookies := [] |}
           (payload_of "USER")) as H.
  at_input H. exact H.
Defined.

Lemma authorize_fallback_link_error_witness :
  fst (serve (Server.authorize (C := unlinked) (bearer "eyJ.user")) (fresh 100))
  = Sent {| status := 401; body := ErrorCode "REFRESH TOKEN INVALID";
            cookies := [ClearCookie] |} /\
  Redis.entries (tokenCache
    (snd (serve (Server.authorize (C := unlinked) (bearer "eyJ.user")) (fresh 100))))
  = ∅.
Proof.
  pose proof (authorize_fallback_link_error (C := unlinked) (bearer "eyJ.user")
              (fresh 100) "eyJ.user" (decoded_of "USER")
              {| le_error := "no pairing"; le_status := 401;
                 le_code := "REFRESH TOKEN INVALID" |}) as H.
  at_input H. destruct H as (Hans & _ & Hent).
  split; [exact Hans | exact Hent].
Defined.

Lemma authorize_fallback_success_witness :
  fst (serve (Server.authorize (bearer "eyJ.user")) (fresh 1800))
  = Sent {| status := 200; body := Json (rest_without_exp_iat (decoded_of "USER"));
            cookies := [] |} /\
  Redis.entries (tokenCache
    (snd (serve (Server.authorize (bearer "eyJ.user")) (fresh 1800))))
  = <["eyJ.user" := {| Redis.value := decoded_of "USER";
                       Redis.expires_at := 1800 + (3600 - 0) |}]> ∅.
Proof.
  pose proof (authorize_fallback_success (bearer "eyJ.user") (fresh 1800)
                "eyJ.user" (decoded_of "USER") 3600 0) as H.
  at_input H. exact H.
Defined.

End MoreWitnesses.

Section RefreshAndSignOutWitnesses.

Import Scenario.

Lemma refresh_unknown_pairing_witness :
  fst (serve (Server.refresh (bearer "eyJ.user")) (fresh 100))
  = Sent {| status := 401;
            body := ErrorCode "NO RECORD OF CURRENT TOKEN PAIRING EXISTS";
            cookies := [ClearCookie] |} /\
  events_since (fresh 100) (snd (serve (Server.refresh (bearer "eyJ.user")) (fresh 100)))
  = [BlacklistGet "eyJ.user"; LedgerFind "eyJ.user" "eyJ.refresh.u1"].
Proof.
  pose proof (refresh_unknown_pairing (bearer "eyJ.user") (fresh 100)
                "eyJ.user" "eyJ.refresh.u1") as H.
  at_input H. destruct H as (Hans & Hev & _). by split.
Defined.

Lemma refresh_ledger_fault_witness :
  fst (serve (Server.refresh (bearer "eyJ.user")) (ledger_fails (fresh 100)))
  = Sent {| status := 500; body := ErrorCode "PROBLEM RETRIEVING TOKEN RECORD";
            cookies := [] |}.
Proof.
  pose proof (refresh_ledger_fault (bearer "eyJ.user") (ledger_fails (fresh 100))
                "eyJ.user" "eyJ.refresh.u1") as H.
  at_input H. exact (proj1 H).
Defined.

Lemma refresh_success_witness :
  let w := at_time 500 (snd (serve (Server.sign_in (credentials "a@x.com" "p1"))
                               (fresh 100))) in
  let req := paired "eyJ.access.u1.100" "eyJ.refresh.u1.100" in
  let w' := snd (serve (Server.refresh req) w) in
  fst (serve (Server.refresh req) w)
  = Sent {| status := 200;
            body := Json (payload_of "USER"
                          ∪ {[ "access_token" := VStr "eyJ.access.u1.500" ]});
            cookies := [SetCookie "eyJ.refresh.u1.500" 605300] |} /\
  length (records (TokenStore w')) = 2%nat /\
  is_Some (find (pairing "eyJ.access.u1.100" "eyJ.refresh.u1.100")
             (records (TokenStore w'))) /\
  is_Some (Redis.entries (tokenCache w') !! "eyJ.access.u1.500").
Proof.
  intros w req w'.
  pose proof (refresh_success req w
                "eyJ.access.u1.100" "eyJ.refresh.u1.100"
                {| user_id := "u1"; access_token := "eyJ.access.u1.100";
                   refresh_token := "eyJ.refresh.u1.100";
                   access_token_exp_date := 3700;
                   refresh_token_exp_date := 604900;
                   requester_data := "curl" |}
                alice
                (fst (generateUserTokens_model alice 3600 604800 500))
                (snd (generateUserTokens_model alice 3600 604800 500))) as H.
  at_input H. destruct H as (Hans & _ & Hrec & Hold & _ & Hnew).
  split; [etransitivity; [exact Hans | vm_compute; reflexivity] |].
  split; [subst w'; rewrite Hrec; vm_compute; reflexivity |].
  split; [subst w'; rewrite Hold; by eexists |].
  eexists. etransitivity; [| exact Hnew]. vm_compute. reflexivity.
Defined.

Lemma refresh_claims_need_pairing_witness :
  let w := at_time 500 (snd (serve (Server.sign_in (credentials "a@x.com" "p1"))
                               (fresh 100))) in
  let req := paired "eyJ.access.u1.100" "eyJ.refresh.u1.100" in
  exists t rt d u,
    present (req_token req) = Some t /\
    clean_miss (blacklist_lookup w t) /\
    present (req_refresh_cookie req) = Some rt /\
    d ∈ records (TokenStore w) /\
    access_token d = t /\ refresh_token d = rt /\
    fetchUserById (user_id d) = {| fetched_user := Some u; fetch_error := None |}.
Proof.
  intros w req.
  pose proof (refresh_claims_need_pairing req w
                {| status := 200;
                   body := Json (payload_of "USER"
                                 ∪ {[ "access_token" := VStr "eyJ.access.u1.500" ]});
                   cookies := [SetCookie "eyJ.refresh.u1.500" 605300] |}
                (payload_of "USER" ∪ {[ "access_token" := VStr "eyJ.access.u1.500" ]}))
    as H.
  at_input H. exact H.
Defined.

Lemma sign_out_already_blacklisted_witness :
  fst (serve (Server.sign_out (bearer "eyJ.user"))
         (blacklisting "eyJ.user" 3600 (fresh 100)))
  = Sent {| status := 400; body := ErrorCode "TOKEN ALREADY BLACKLISTED";
            cookies := [] |}.
Proof.
  pose proof (sign_out_already_blacklisted (bearer "eyJ.user")
                (blacklisting "eyJ.user" 3600 (fresh 100)) "eyJ.user") as H.
  at_input H. exact (proj1 H).
Defined.

Lemma sign_out_invalid_signature_witness :
  fst (serve (Server.sign_out (bearer "eyJ.user")) (fresh 4000))
  = Sent {| status := 400; body := ErrorCode "TOKEN ALREADY INVALID";
            cookies := [] |} /\
  fst (serve (Server.sign_out (bearer "garbage")) (fresh 100))
  = Sent {| status := 400; body := ErrorCode "TOKEN ALREADY INVALID";
            cookies := [] |}.
Proof.
  pose proof (sign_out_invalid_signature (bearer "eyJ.user") (fresh 4000)
                "eyJ.user" "TokenExpiredError") as H1.
  pose proof (sign_out_invalid_signature (bearer "garbage") (fresh 100)
                "garbage" "JsonWebTokenError") as H2.
  at_input H1. at_input H2. exact (conj (proj1 H1) (proj1 H2)).
Defined.

Lemma sign_out_frame_witness :
  let w := blacklisting "eyJ.system" 3600 (fresh 1800) in
  let w' := snd (serve (Server.sign_out (bearer "eyJ.user")) w) in
  tokenCache w' = tokenCache w /\
  Redis.entries (tokenBlacklistCache w') !! "eyJ.system"
  = Redis.entries (tokenBlacklistCache w) !! "eyJ.system".
Proof.
  intros w w'.
  destruct (sign_out_frame (bearer "eyJ.user") w) as (Hc & _ & _ & _ & Hk).
  split; [exact Hc |]. apply Hk. discriminate.
Defined.

Lemma sign_out_then_rejected_witness :
  let w1 := at_time 2000 (snd (serve (Server.sign_out (bearer "eyJ.user"))
                                 (fresh 1800))) in
  fst (serve (Server.sign_out (bearer "eyJ.user")) (fresh 1800))
  = Sent {| status := 200; body := Text "SUCCESS"; cookies := [] |} /\
  fst (serve (Server.authorize (bearer "eyJ.user")) w1) = Sent token_invalid /\
  fst (serve (Server.refresh (bearer "eyJ.user")) w1) = Sent token_invalid /\
  fst (serve (Server.sign_out (bearer "eyJ.user")) w1)
  = Sent {| status := 400; body := ErrorCode "TOKEN ALREADY BLACKLISTED";
            cookies := [] |}.
Proof.
  pose proof (sign_out_then_rejected (bearer "eyJ.user") (bearer "eyJ.user")
                (fresh 1800) "eyJ.user" (decoded_of "USER") 3600 0 2000) as H.
  at_input H. exact H.
Defined.

Lemma executeImpl_ok_checked_witness :
  exists t,
    present (Some "eyJ.user") = Some t /\
    (fun _ : string => false) t = false /\
    ((fun _ : string => @None jsobj) t = Some (payload_of "USER") \/
     ((fun _ : string => @None jsobj) t = None /\
      defined (Some "secret") = true /\
      exists d, jwt_verify t 100 = Decoded d /\
        payload_of "USER" = rest_without_exp_iat d /\
        payload_of "USER" !! "iat" = None /\ payload_of "USER" !! "exp" = None /\
        last (snd (AuthorizeController.executeImpl (fun _ => false) (fun _ => None)
                     (Some "secret") (fun t => jwt_verify t 100) (Some "eyJ.user")))
        = Some (AuthorizeController.CacheToken t (payload_of "USER")
                  (js_sub (js_num d "exp") (js_num d "iat"))))).
Proof.
  pose proof (executeImpl_ok_checked (fun _ => false) (fun _ => None)
                (Some "secret") (fun t => jwt_verify t 100) (Some "eyJ.user")
                (payload_of "USER")) as H.
  at_input H. exact H.
Defined.

End RefreshAndSignOutWitnesses.

Lemma User_init_then_read_witness :
  let this := User.initByEmail (fun _ => Some Scenario.alice) User.constructor
                "a@x.com" in
  User.exists_ this = true /\
  User.getFields this = User.Return (Some Scenario.alice) /\
  User.hasPassword String.eqb this "hash:p1" = User.Return true.
Proof.
  intros this.
  destruct (User_init_then_read (fun _ => Some Scenario.alice) (fun _ => None)
              String.eqb string _id User.constructor "a@x.com" "hash:p1")
    as (Hemail & _).
  destruct (Hemail Scenario.alice eq_refl) as (He & Hf & _ & Hp & _).
  split; [exact He |]. split; [exact Hf | exact Hp].
Defined.

Section CacheFaultWitness.

Import Scenario.

Lemma authorize_cache_fault_witness :
  fst (serve (Server.authorize (bearer "eyJ.user")) (cache_fails (fresh 100)))
  = Sent {| status := 500; body := ErrorCode "PROBLEM READING CACHE";
            cookies := [] |} /\
  events_since (cache_fails (fresh 100))
    (snd (serve (Server.authorize (bearer "eyJ.user")) (cache_fails (fresh 100))))
  = [BlacklistGet "eyJ.user"; CacheGet "eyJ.user"].
Proof.
  pose proof (authorize_cache_fault (bearer "eyJ.user")
                (cache_fails (fresh 100)) "eyJ.user" "REDIS ERROR") as H.
  at_input H. exact H.
Defined.

End CacheFaultWitness.
